(** * LSTSAUG / ClassifierModelFCN.py

    A shallow embedding of the fully convolutional classifier of
    [src/LSTSAUG/ClassifierModelFCN.py] and of its training loop.

    - Module [Shape]: the forward pass of [Classifier_FCN] on tensor
      shapes, with the size checks PyTorch performs in each layer.
    - Tensor values and metrics: argmax, the match count and scikit-learn's
      weighted F1 on exact rationals.
    - Section [Training]: [train_epoch], [validate] and [train_classifier]
      over a numerical back end, with the mutated classifier, the shared
      [logs] dictionary, the console, the metric sink and the checkpoint
      store passed explicitly.  Python exceptions are the [Raise] results
      of the [result] monad.

    Floats are modelled by exact rationals ([Q]), so rounding and overflow
    are left out; the mean of an empty loss tensor, which is not a number,
    is kept as [NaN] in [loss_val]. *)

From Stdlib Require Import ZArith QArith List Lia Bool String.
From stdpp Require Import base gmap strings.
Import ListNotations.

Local Open Scope nat_scope.

(* ------------------------------------------------------------------ *)
(** ** Exceptions and the result monad *)

Inductive exn : Type :=
| ZeroDivisionError
| IndexError
| RuntimeError
| ValueError.

Inductive result (A : Type) : Type :=
| Ok (a : A)
| Raise (e : exn).

Arguments Ok {A} a.
Arguments Raise {A} e.

#[global] Instance result_ret : MRet result := fun A a => Ok a.

#[global] Instance result_bind : MBind result := fun A B f m =>
  match m with
  | Ok a => f a
  | Raise e => Raise e
  end.

(* ------------------------------------------------------------------ *)
(** ** The forward pass on shapes *)

Module Shape.

(** A tensor shape, outermost dimension first. *)
Definition shape := list nat.

(** [nn.Conv1d(in_channels, out_channels, kernel_size, stride, padding)],
    dilation 1 and one group: the input is [(N, C, L)] or, unbatched,
    [(C, L)].  The weight must have at least one output channel, the
    stride must be positive, [C] must be [in_channels], the input must
    have at least one time step and the padded length must cover the
    kernel. *)
Definition conv1d (in_channels out_channels kernel_size stride padding : nat)
    (s : shape) : result shape :=
  let l_out l := (l + 2 * padding - kernel_size) / stride + 1 in
  let accepted c l :=
    (1 <=? out_channels) && (1 <=? stride) && (c =? in_channels)
    && (1 <=? l) && (kernel_size <=? l + 2 * padding) in
  match s with
  | [n; c; l] =>
      if accepted c l then Ok [n; out_channels; l_out l] else Raise RuntimeError
  | [c; l] =>
      if accepted c l then Ok [out_channels; l_out l] else Raise RuntimeError
  | _ => Raise RuntimeError
  end.

(** [nn.BatchNorm1d(num_features)]: the input is [(N, C)] or [(N, C, L)]
    with [C = num_features]; in training mode exactly one value per
    channel is refused. *)
Definition batchnorm1d (num_features : nat) (training : bool) (s : shape)
    : result shape :=
  match s with
  | [n; c] =>
      if negb (c =? num_features) then Raise RuntimeError
      else if training && (n =? 1) then Raise ValueError
      else Ok s
  | [n; c; l] =>
      if negb (c =? num_features) then Raise RuntimeError
      else if training && (n * l =? 1) then Raise ValueError
      else Ok s
  | _ => Raise ValueError
  end.

(** [nn.ReLU] is elementwise. *)
Definition relu (s : shape) : result shape := Ok s.

(** [nn.AdaptiveAvgPool1d(output_size)]: the temporal axis becomes
    [output_size]; the non-batch dimensions must not be empty. *)
Definition adaptive_avg_pool1d (output_size : nat) (s : shape) : result shape :=
  match s with
  | [n; c; l] =>
      if (0 <? c) && (0 <? l) then Ok [n; c; output_size] else Raise RuntimeError
  | [c; l] =>
      if (0 <? c) && (0 <? l) then Ok [c; output_size] else Raise RuntimeError
  | _ => Raise RuntimeError
  end.

(** [t.squeeze(-1)]: the last dimension is removed when it is 1. *)
Definition squeeze_last (s : shape) : shape :=
  match rev s with
  | 1 :: front => rev front
  | _ => s
  end.

(** [FCNBlock.forward]: convolution, batch normalisation, ReLU. *)
Definition FCNBlock_forward (in_channels out_channels kernel_size stride padding : nat)
    (training : bool) (x : shape) : result shape :=
  out ← conv1d in_channels out_channels kernel_size stride padding x;
  out ← batchnorm1d out_channels training out;
  relu out.

Definition n_feature_maps : nat := 64.

(** [Classifier_FCN.forward], with the layers of [Classifier_FCN.__init__]. *)
Definition forward (nb_classes : nat) (training : bool) (x : shape) : result shape :=
  out ← conv1d 1 n_feature_maps 8 1 4 x;
  out ← batchnorm1d n_feature_maps training out;
  out ← relu out;
  out ← FCNBlock_forward n_feature_maps n_feature_maps 3 1 1 training out;
  out ← FCNBlock_forward n_feature_maps (n_feature_maps * 2) 3 1 1 training out;
  out ← FCNBlock_forward (n_feature_maps * 2) (n_feature_maps * 2) 3 1 1 training out;
  out ← adaptive_avg_pool1d 1 out;
  out ← conv1d (n_feature_maps * 2) nb_classes 1 1 0 out;
  Ok (squeeze_last out).

End Shape.

(* ------------------------------------------------------------------ *)
(** ** Tensor values and metrics *)

(** A 2-D tensor is the list of its rows; a tensor without rows is taken
    to have at least one column. *)
Definition tensor := list (list Q).

(** [len(t)]: the size of the first dimension. *)
Definition len (t : tensor) : Z := Z.of_nat (length t).

(** [x > y] on floats. *)
Definition Qgtb (x y : Q) : bool := negb (Qle_bool x y).

(** The sum of a list of rationals. *)
Definition Qsum (l : list Q) : Q := fold_right Qplus 0%Q l.

(** The number of elements of [l] that satisfy [f], as a Python int. *)
Definition count {A} (f : A -> bool) (l : list A) : Z :=
  Z.of_nat (length (List.filter f l)).

(** [torch.argmax] along one row: the index of the first maximal value
    (the running maximum is replaced only by a strictly greater value). *)
Fixpoint argmax_from (best_i : nat) (best : Q) (i : nat) (row : list Q) : nat :=
  match row with
  | [] => best_i
  | x :: rest =>
      if Qgtb x best then argmax_from i x (S i) rest
      else argmax_from best_i best (S i) rest
  end.

Definition argmax_row (row : list Q) : result nat :=
  match row with
  | [] => Raise IndexError
  | x :: rest => Ok (argmax_from 0 x 1 rest)
  end.

(** [torch.argmax(t, dim=1)]. *)
Fixpoint argmax (t : tensor) : result (list nat) :=
  match t with
  | [] => Ok []
  | row :: rows =>
      i ← argmax_row row;
      rest ← argmax rows;
      Ok (i :: rest)
  end.

(** [torch.sum(a == b).item()] on two index vectors: elementwise when the
    lengths agree, broadcast when one of them has length one. *)
Definition eq_sum (a b : list nat) : result Z :=
  if (length a =? length b)%nat
  then Ok (count (fun '(x, y) => (x =? y)%nat) (combine a b))
  else match a, b with
       | [x], _ => Ok (count (fun y => (x =? y)%nat) b)
       | _, [y] => Ok (count (fun x => (x =? y)%nat) a)
       | _, _ => Raise RuntimeError
       end.

(** The F1 score of one label: [2 tp / (2 tp + fp + fn)], and 0 when the
    label occurs in neither vector. *)
Definition f1_label (y_true y_pred : list nat) (c : nat) : Q :=
  let tp := count (fun '(t, p) => (t =? c)%nat && (p =? c)%nat) (combine y_true y_pred) in
  let true_sum := count (fun t => (t =? c)%nat) y_true in
  let pred_sum := count (fun p => (p =? c)%nat) y_pred in
  if (true_sum + pred_sum =? 0)%Z then 0%Q
  else (inject_Z (2 * tp) / inject_Z (true_sum + pred_sum))%Q.

(** [sklearn.metrics.f1_score(y_true, y_pred, average="weighted")]: the
    per-label scores averaged with the labels' supports as weights. *)
Definition f1_score (y_true y_pred : list nat) : result Q :=
  if negb (length y_true =? length y_pred)%nat then Raise ValueError
  else
    let labels := nodup Nat.eq_dec (y_true ++ y_pred) in
    let support c := count (fun t => (t =? c)%nat) y_true in
    let weighted := Qsum (map (fun c => (inject_Z (support c) * f1_label y_true y_pred c)%Q) labels) in
    let weights := fold_right Z.add 0%Z (map support labels) in
    if (weights =? 0)%Z then Ok 0%Q else Ok (weighted / inject_Z weights)%Q.

(** A float that may be NaN: the running loss. *)
Inductive loss_val : Type :=
| Finite (q : Q)
| NaN.

(** [a + b] on floats: NaN propagates. *)
Definition loss_add (a b : loss_val) : loss_val :=
  match a, b with
  | Finite x, Finite y => Finite (x + y)%Q
  | _, _ => NaN
  end.

(** [a / n] in Python, for a float or int [a] and an int [n]. *)
Definition loss_div (a : loss_val) (n : Z) : result loss_val :=
  if (n =? 0)%Z then Raise ZeroDivisionError
  else match a with
       | Finite x => Ok (Finite (x / inject_Z n)%Q)
       | NaN => Ok NaN
       end.

(** [a / n] in Python, for two ints. *)
Definition int_div (a n : Z) : result Q :=
  if (n =? 0)%Z then Raise ZeroDivisionError
  else Ok (inject_Z a / inject_Z n)%Q.

(** Two tensors have the same size. *)
Fixpoint same_size (a b : tensor) : bool :=
  match a, b with
  | [], [] => true
  | r :: a', t :: b' => (length r =? length t)%nat && same_size a' b'
  | _, _ => false
  end.

(** [t.numel()]: the number of elements. *)
Definition numel (t : tensor) : Z :=
  fold_right Z.add 0%Z (map (fun r => Z.of_nat (length r)) t).

(** A 3-D tensor [(N, C, L)]. *)
Definition tensor3 := list (list (list Q)).

(** [x.unsqueeze(1)]: [(N, L)] becomes [(N, 1, L)]. *)
Definition unsqueeze1 (x : tensor) : tensor3 := map (fun row => [row]) x.

(** Modelled from the spec: [utils.to_default_device] is imported from a
    module that is not under src/; it "returns an equivalent tensor
    resident on the active compute device", the identity on values. *)
Definition to_default_device {T : Type} (t : T) : T := t.

(* ------------------------------------------------------------------ *)
(** ** Configuration and the outside world *)

(** The recognised options of the [config] mapping. *)
Record Config : Type := {
  WANDB : bool;
  WANDB_PROJECT : string;
  DATASET : string;
  NUM_EPOCHS : Z;
  EARLY_STOP_PATIENCE : Z;
  SAVE_CLASSIFIER : bool
}.

(** What [train_classifier] prints. *)
Inductive Line : Type :=
| EarlyStopLine (epoch : nat)       (* "Early stopping triggered at epoch:" *)
| BestAccLine (best_acc : Q)        (* "Best test accuracy:" *)
| SavedLine (model_path : string).  (* "Model saved to ..." *)

(** The per-epoch record of [wandb.log]. *)
Record Metrics : Type := {
  train_loss : loss_val;
  train_accuracy : Q;
  test_accuracy : Q;
  test_f1 : Q
}.

(** The calls received by the metric sink. *)
Inductive WandbCall : Type :=
| WandbInit (project : string) (config : Config) (tags : list string) (name : string)
| WandbWatch
| WandbLog (m : Metrics)
| WandbFinish.

(** The numerical back end: the network's parameters and buffers ([Net],
    what [state_dict()] holds), the optimizer and scheduler state ([Opt]),
    the forward pass in training mode (which also moves the running
    statistics of the batch normalisations) and in evaluation mode (which
    changes nothing), the elementwise binary cross entropy on a logit and
    its target, [loss.backward(); optimizer.step()], the
    [ReduceLROnPlateau] step, and the path resolver of [utils]. *)
Class Backend : Type := {
  Net : Type;
  Opt : Type;
  forward_train : Net -> tensor3 -> result (Net * tensor);
  forward_eval : Net -> tensor3 -> result tensor;
  bce_with_logits : Q -> Q -> Q;
  backward_step : Net -> Opt -> tensor3 -> tensor -> Net * Opt;
  scheduler_step : Opt -> loss_val -> Opt;
  get_model_path : Config -> string -> string
}.

(** The three exits of the epoch loop of [train_classifier]: the [for]
    ran out of epochs, or the [break] was taken at [epoch]. *)
Inductive loop_exit : Type :=
| Completed
| StoppedEarly (epoch : nat).

Section Training.
Context {B : Backend}.

(** A [Classifier_FCN] instance. *)
Record Classifier : Type := {
  net : Net;
  opt : Opt;
  training : bool
}.

(** The console, the metric sink and the files written by [torch.save]. *)
Record World : Type := {
  stdout : list Line;
  wandb : list WandbCall;
  files : gmap string Net
}.

Definition print (l : Line) (w : World) : World :=
  {| stdout := stdout w ++ [l]; wandb := wandb w; files := files w |}.

Definition wandb_call (c : WandbCall) (w : World) : World :=
  {| stdout := stdout w; wandb := wandb w ++ [c]; files := files w |}.

Definition torch_save (state_dict : Net) (path : string) (w : World) : World :=
  {| stdout := stdout w; wandb := wandb w; files := <[path := state_dict]> (files w) |}.

(** [self.train()] and [self.eval()]. *)
Definition set_training (mode : bool) (self : Classifier) : Classifier :=
  {| net := net self; opt := opt self; training := mode |}.

(** [self(x)]: the forward pass in the current mode. *)
Definition call (self : Classifier) (x : tensor3) : result (Classifier * tensor) :=
  if training self then
    '(n, out) ← forward_train (net self) x;
    Ok ({| net := n; opt := opt self; training := training self |}, out)
  else
    out ← forward_eval (net self) x;
    Ok (self, out).

(** [nn.BCEWithLogitsLoss()], default reduction: the mean of the
    elementwise losses over all the elements of the batch; the sizes must
    agree, and the mean of an empty tensor is NaN. *)
Definition criterion (input target : tensor) : result loss_val :=
  if negb (same_size input target) then Raise ValueError
  else if (numel input =? 0)%Z then Ok NaN
  else
    let losses :=
      flat_map (fun '(r, t) => map (fun '(x, y) => bce_with_logits x y) (combine r t))
               (combine input target) in
    Ok (Finite (Qsum losses / inject_Z (numel input))%Q).

(** The batch loop of [train_epoch] with its three accumulators. *)
Fixpoint train_batches (self : Classifier) (train_loader : list (tensor * tensor))
    (train_loss : loss_val) (correct total : Z)
    : result (Classifier * (loss_val * Z * Z)) :=
  match train_loader with
  | [] => Ok (self, (train_loss, correct, total))
  | (X, y) :: batches =>
      let X := unsqueeze1 X in
      let X := to_default_device X in
      let y := to_default_device y in
      '(self, output) ← call self X;
      loss ← criterion output y;
      let '(n, o) := backward_step (net self) (opt self) X y in
      let self := {| net := n; opt := o; training := training self |} in
      pred ← argmax output;
      target ← argmax y;
      acc ← eq_sum pred target;
      train_batches self batches (loss_add train_loss loss) (correct + acc)%Z (total + len y)%Z
  end.

(** [Classifier_FCN.train_epoch]. *)
Definition train_epoch (self : Classifier) (train_loader : list (tensor * tensor))
    : result (Classifier * (loss_val * Q)) :=
  let self := set_training true self in
  '(self, (train_loss, correct, total)) ← train_batches self train_loader (Finite 0) 0%Z 0%Z;
  epoch_loss ← loss_div train_loss total;
  let self := {| net := net self; opt := scheduler_step (opt self) epoch_loss;
                 training := training self |} in
  epoch_acc ← int_div correct total;
  Ok (self, (epoch_loss, epoch_acc)).

(** [Classifier_FCN.validate]. *)
Definition validate (self : Classifier) (test_data : tensor * tensor)
    : result (Classifier * (Q * Q)) :=
  let self := set_training false self in
  let '(x, y) := test_data in
  let x := unsqueeze1 x in
  let x := to_default_device x in
  let y := to_default_device y in
  '(self, y_pred) ← call self x;
  pred ← argmax y_pred;
  target ← argmax y;
  matches ← eq_sum pred target;
  accuracy ← int_div matches (len y);
  f1 ← f1_score target pred;
  Ok (self, (accuracy, f1)).

(** The local variables of [train_classifier] that live across epochs. *)
Record LoopState : Type := {
  ls_self : Classifier;
  best_acc : Q;
  best_f1 : Q;
  early_stop_counter : Z;
  ls_world : World
}.

(** The [for epoch in range(NUM_EPOCHS)] loop of [train_classifier]. *)
Fixpoint epoch_loop (config : Config) (train_loader : list (tensor * tensor))
    (test_data : tensor * tensor) (epochs : list nat) (st : LoopState)
    : result (LoopState * loop_exit) :=
  match epochs with
  | [] => Ok (st, Completed)
  | epoch :: epochs' =>
      '(self, (train_loss, train_acc)) ← train_epoch (ls_self st) train_loader;
      '(self, (test_acc, test_f1)) ← validate self test_data;
      let world :=
        if WANDB config
        then wandb_call (WandbLog {| train_loss := train_loss; train_accuracy := train_acc;
                                     test_accuracy := test_acc; test_f1 := test_f1 |})
                        (ls_world st)
        else ls_world st in
      if Qgtb test_acc (best_acc st) then
        epoch_loop config train_loader test_data epochs'
          {| ls_self := self; best_acc := test_acc; best_f1 := test_f1;
             early_stop_counter := 0; ls_world := world |}
      else
        let counter := (early_stop_counter st + 1)%Z in
        if (EARLY_STOP_PATIENCE config <=? counter)%Z then
          Ok ({| ls_self := self; best_acc := best_acc st; best_f1 := best_f1 st;
                 early_stop_counter := counter;
                 ls_world := print (EarlyStopLine epoch) world |},
              StoppedEarly epoch)
        else
          epoch_loop config train_loader test_data epochs'
            {| ls_self := self; best_acc := best_acc st; best_f1 := best_f1 st;
               early_stop_counter := counter; ls_world := world |}
  end.

(** [range(n)]. *)
Definition range (n : Z) : list nat := seq 0 (Z.to_nat n).

(** [Classifier_FCN.train_classifier]: the classifier and [logs] are
    mutated in place and returned; the world is threaded through. *)
Definition train_classifier (self : Classifier) (train_loader : list (tensor * tensor))
    (test_data : tensor * tensor) (config : Config) (logs : gmap string Q)
    (name : string) (world : World)
    : result (Classifier * gmap string Q * World) :=
  let world :=
    if WANDB config
    then wandb_call WandbWatch
           (wandb_call (WandbInit (WANDB_PROJECT config) config
                                  ["train"; DATASET config; name]
                                  (DATASET config +:+ " " +:+ name))
                       world)
    else world in
  '(st, _) ← epoch_loop config train_loader test_data (range (NUM_EPOCHS config))
               {| ls_self := self; best_acc := 0; best_f1 := 0;
                  early_stop_counter := 0; ls_world := world |};
  let world := print (BestAccLine (best_acc st)) (ls_world st) in
  let logs := <[name +:+ "_best_acc" := best_acc st]> logs in
  let logs := <[name +:+ "_best_f1" := best_f1 st]> logs in
  let world := if WANDB config then wandb_call WandbFinish world else world in
  let world :=
    if SAVE_CLASSIFIER config then
      let model_path := get_model_path config name in
      print (SavedLine model_path) (torch_save (net (ls_self st)) model_path world)
    else world in
  Ok (ls_self st, logs, world).

(** *** The run as a sequence of epochs *)

(** One iteration of the loop up to its [if]: [train_epoch], then
    [validate], and the four metrics of the epoch. *)
Definition run_epoch (self : Classifier) (train_loader : list (tensor * tensor))
    (test_data : tensor * tensor) : result (Classifier * Metrics) :=
  '(self, (train_loss, train_acc)) ← train_epoch self train_loader;
  '(self, (test_acc, test_f1)) ← validate self test_data;
  Ok (self, {| train_loss := train_loss; train_accuracy := train_acc;
               test_accuracy := test_acc; test_f1 := test_f1 |}).

(** The first [n] epochs run one after the other with no early stop: the
    classifier they leave and the metrics they measure. *)
Fixpoint observe (n : nat) (self : Classifier) (train_loader : list (tensor * tensor))
    (test_data : tensor * tensor) : result (Classifier * list Metrics) :=
  match n with
  | O => Ok (self, [])
  | S n' =>
      '(self, m) ← run_epoch self train_loader test_data;
      '(self, ms) ← observe n' self train_loader test_data;
      Ok (self, m :: ms)
  end.

(** The records sent to the sink for the epochs [ms]. *)
Definition log_epochs (config : Config) (ms : list Metrics) (w : World) : World :=
  if WANDB config
  then {| stdout := stdout w; wandb := wandb w ++ map WandbLog ms; files := files w |}
  else w.

(** The world after the two sink calls that open [train_classifier]. *)
Definition started (config : Config) (name : string) (w : World) : World :=
  if WANDB config
  then wandb_call WandbWatch
         (wandb_call (WandbInit (WANDB_PROJECT config) config
                                ["train"; DATASET config; name]
                                (DATASET config +:+ " " +:+ name))
                     w)
  else w.

(** The world after what follows the loop: the best accuracy printed, the
    sink closed, the parameters [n] saved. *)
Definition finished (config : Config) (name : string) (n : Net) (best : Q)
    (w : World) : World :=
  let w := print (BestAccLine best) w in
  let w := if WANDB config then wandb_call WandbFinish w else w in
  if SAVE_CLASSIFIER config
  then print (SavedLine (get_model_path config name))
             (torch_save n (get_model_path config name) w)
  else w.

(** The lines printed by a run that breaks at [epoch]. *)
Definition stopped_output (config : Config) (name : string) (epoch : nat) (best : Q)
    : list Line :=
  EarlyStopLine epoch :: BestAccLine best
    :: (if SAVE_CLASSIFIER config then [SavedLine (get_model_path config name)] else []).

(** The lines printed by a run that uses up its epochs. *)
Definition completed_output (config : Config) (name : string) (best : Q) : list Line :=
  BestAccLine best
    :: (if SAVE_CLASSIFIER config then [SavedLine (get_model_path config name)] else []).

(** The mean loss per example, following the words of the specification:
    the loss of one example is the criterion on its row alone (the mean of
    its elementwise losses), and the mean is the total of these losses
    over the number of examples. *)
Definition example_loss (output target : list Q) : Q :=
  (Qsum (map (fun '(x, y) => bce_with_logits x y) (combine output target))
   / inject_Z (Z.of_nat (length output)))%Q.

Definition spec_mean_loss_per_example (outputs targets : tensor) : Q :=
  (Qsum (map (fun '(o, t) => example_loss o t) (combine outputs targets))
   / inject_Z (len targets))%Q.

End Training.

(** The number of examples in all the batches of a loader. *)
Definition examples (train_loader : list (tensor * tensor)) : Z :=
  fold_right (fun batch n => (len (snd batch) + n)%Z) 0%Z train_loader.

(** The best pair after one more epoch, and after the epochs [ms]. *)
Definition keep_best (b : Q * Q) (m : Metrics) : Q * Q :=
  if Qgtb (test_accuracy m) (fst b) then (test_accuracy m, test_f1 m) else b.

Definition running_best (ms : list Metrics) (b : Q * Q) : Q * Q :=
  fold_left keep_best ms b.

(** Each value is strictly above the one before it. *)
Fixpoint strictly_improving (accs : list Q) : Prop :=
  match accs with
  | a :: (b :: _) as rest => (a < b)%Q /\ strictly_improving rest
  | _ => True
  end.

(** No value is above the one before it. *)
Fixpoint non_increasing (accs : list Q) : Prop :=
  match accs with
  | a :: (b :: _) as rest => (b <= a)%Q /\ non_increasing rest
  | _ => True
  end.

(** A chain of epochs each of which beats the best before it. *)
Fixpoint beats (best : Q) (ms : list Metrics) : Prop :=
  match ms with
  | [] => True
  | m :: ms' => (best < test_accuracy m)%Q /\ beats (test_accuracy m) ms'
  end.

(** The [if]/[else] of the loop body replayed on recorded validation
    metrics: the best accuracy, its F1, the stall counter, and how the
    loop is left when the epochs numbered from [epoch] measure [ms]. *)
Fixpoint early_stopping (patience : Z) (epoch : nat) (ms : list Metrics)
    (best_acc best_f1 : Q) (counter : Z) : Q * Q * Z * loop_exit :=
  match ms with
  | [] => (best_acc, best_f1, counter, Completed)
  | m :: ms' =>
      if Qgtb (test_accuracy m) best_acc
      then early_stopping patience (S epoch) ms' (test_accuracy m) (test_f1 m) 0
      else
        let counter := (counter + 1)%Z in
        if (patience <=? counter)%Z
        then (best_acc, best_f1, counter, StoppedEarly epoch)
        else early_stopping patience (S epoch) ms' best_acc best_f1 counter
  end.

(* ------------------------------------------------------------------ *)
(** ** An executable back end *)

(** A back end that runs: the network state is the number of optimizer
    steps taken so far, the training-mode forward pass answers two zero
    logits per example, and the evaluation-mode forward pass answers the
    logits [logits n] after [n] steps.  The elementwise loss is a
    parameter. *)
Definition scripted (loss : Q -> Q -> Q) (logits : nat -> tensor) : Backend := {|
  Net := nat;
  Opt := unit;
  forward_train := fun n x => Ok (n, map (fun _ => [0; 0]%Q) x);
  forward_eval := fun n _ => Ok (logits n);
  bce_with_logits := loss;
  backward_step := fun n o _ _ => (S n, o);
  scheduler_step := fun o _ => o;
  get_model_path := fun config name => DATASET config +:+ "_" +:+ name +:+ ".pt"
|}.

(** A rational stand-in for the elementwise loss in executable runs. *)
Definition square_loss (x y : Q) : Q := ((x - y) * (x - y))%Q.

(** One batch with one example of length 3 and a one-hot target. *)
Definition one_batch : list (tensor * tensor) := [([[1; 2; 3]%Q], [[1; 0]%Q])].

(** Ten held-out examples of class 0. *)
Definition ten_of_class0 : tensor * tensor :=
  (repeat [0; 0; 0]%Q 10, repeat [1; 0]%Q 10).

(** Logits that get the first [c] of ten class-0 examples right. *)
Definition right_of_ten (c : nat) : tensor :=
  repeat [1; 0]%Q c ++ repeat [0; 1]%Q (10 - c).

(** Logits after [n] optimizer steps when epoch [e] (one step per epoch)
    is to get [nth e cs 0] of the ten examples right. *)
Definition accuracy_script (cs : list nat) (n : nat) : tensor :=
  right_of_ten (nth (n - 1) cs 0%nat).

Definition empty_world {B : Backend} : World :=
  {| stdout := []; wandb := []; files := ∅ |}.

(** Four held-out examples, three of class 0 and one of class 1. *)
Definition three_and_one : tensor * tensor :=
  (repeat [0; 0; 0]%Q 4, [[1; 0]; [1; 0]; [1; 0]; [0; 1]]%Q).

(** After the first step every example is predicted as class 0; after
    the second the last two are predicted as class 1. *)
Definition f1_script (n : nat) : tensor :=
  match n with
  | 1%nat => [[1; 0]; [1; 0]; [1; 0]; [1; 0]]%Q
  | _ => [[1; 0]; [1; 0]; [0; 1]; [0; 1]]%Q
  end.

(** The same two examples in one batch of two and in two batches of one. *)
Definition two_in_one_batch : list (tensor * tensor) :=
  [([[1; 2; 3]; [4; 5; 6]]%Q, [[1; 0]; [1; 0]]%Q)].

Definition two_in_two_batches : list (tensor * tensor) :=
  [([[1; 2; 3]]%Q, [[1; 0]]%Q); ([[4; 5; 6]]%Q, [[1; 0]]%Q)].

Definition quiet_config (num_epochs patience : Z) : Config :=
  {| WANDB := false; WANDB_PROJECT := "p"; DATASET := "d";
     NUM_EPOCHS := num_epochs; EARLY_STOP_PATIENCE := patience;
     SAVE_CLASSIFIER := false |}.

(** A configuration with the sink and saving enabled. *)
Definition loud_config (num_epochs patience : Z) : Config :=
  {| WANDB := true; WANDB_PROJECT := "p"; DATASET := "d";
     NUM_EPOCHS := num_epochs; EARLY_STOP_PATIENCE := patience;
     SAVE_CLASSIFIER := true |}.

(** The classifier before training in the scripted runs. *)
Definition untrained (loss : Q -> Q -> Q) (logits : nat -> tensor)
    : @Classifier (scripted loss logits) :=
  @Build_Classifier (scripted loss logits) 0%nat tt true.

(** The metrics of the first [n] epochs of a scripted run on ten
    class-0 examples. *)
Definition scripted_metrics (cs : list nat) (n : nat) : list Metrics :=
  match observe (B := scripted square_loss (accuracy_script cs)) n
          (untrained square_loss (accuracy_script cs)) one_batch ten_of_class0 with
  | Ok (_, ms) => ms
  | Raise _ => []
  end.

(** Closes the goals left by evaluating a closed statement. *)
Ltac evaluated :=
  vm_compute;
  repeat match goal with
         | |- _ /\ _ => split
         | |- True => exact I
         | |- _ = _ => reflexivity
         | |- _ <> _ => discriminate
         | |- _ -> False => discriminate
         end.

(* ================================================================== *)
(** * Properties *)

(* ------------------------------------------------------------------ *)
(** ** The forward pass is defined for every length *)

Section ShapeFacts.
Import Shape.

Example forward_2_3_5 : forward 3 true [2; 1; 5] = Ok [2; 3].
Proof. reflexivity. Qed.

Example forward_one_sample : forward 2 true [1; 1; 1] = Ok [1; 2].
Proof. reflexivity. Qed.

(** A convolution with stride 1 whose five checks pass. *)
Lemma conv1d_accepts cin cout k p n l :
  1 <= cout -> 1 <= l -> k <= l + 2 * p ->
  conv1d cin cout k 1 p [n; cin; l] = Ok [n; cout; l + 2 * p - k + 1].
Proof.
  intros Hc Hl Hk. unfold conv1d. rewrite Nat.eqb_refl.
  replace (1 <=? cout) with true by (symmetry; apply Nat.leb_le; exact Hc).
  replace (1 <=? l) with true by (symmetry; apply Nat.leb_le; exact Hl).
  replace (k <=? l + 2 * p) with true by (symmetry; apply Nat.leb_le; exact Hk).
  simpl andb. cbv iota. rewrite Nat.div_1_r. reflexivity.
Qed.

(** A kernel of 3 with padding 1 and stride 1 keeps the length. *)
Lemma conv1d_same_length cin cout n l :
  1 <= cout -> 1 <= l -> conv1d cin cout 3 1 1 [n; cin; l] = Ok [n; cout; l].
Proof.
  intros Hc Hl. rewrite conv1d_accepts by lia.
  replace (l + 2 * 1 - 3 + 1) with l by lia. reflexivity.
Qed.

(** The first convolution (kernel 8, padding 4) adds one time step. *)
Lemma conv1d_first n l :
  1 <= l ->
  conv1d 1 n_feature_maps 8 1 4 [n; 1; l] = Ok [n; n_feature_maps; l + 1].
Proof.
  intros Hl. rewrite conv1d_accepts by (unfold n_feature_maps; lia).
  replace (l + 2 * 4 - 8 + 1) with (l + 1) by lia. reflexivity.
Qed.

(** The projection (kernel 1, no padding) keeps a length of one. *)
Lemma conv1d_pointwise cin cout n :
  1 <= cout -> conv1d cin cout 1 1 0 [n; cin; 1] = Ok [n; cout; 1].
Proof. intros Hc. rewrite conv1d_accepts by lia. reflexivity. Qed.

(** A convolution with no output channel is refused on every input. *)
Lemma conv1d_no_output cin k stride p (s : shape) :
  conv1d cin 0 k stride p s = Raise RuntimeError.
Proof. destruct s as [|a [|b [|c [|d rest]]]]; reflexivity. Qed.

Lemma batchnorm1d_ok c training n l :
  1 <= n -> 2 <= l -> batchnorm1d c training [n; c; l] = Ok [n; c; l].
Proof.
  intros Hn Hl. unfold batchnorm1d. rewrite Nat.eqb_refl. simpl negb. cbv iota.
  replace (n * l =? 1) with false by (symmetry; apply Nat.eqb_neq; nia).
  rewrite andb_false_r. reflexivity.
Qed.

Lemma FCNBlock_forward_ok cin cout training n l :
  1 <= cout -> 1 <= n -> 2 <= l ->
  FCNBlock_forward cin cout 3 1 1 training [n; cin; l] = Ok [n; cout; l].
Proof.
  intros Hc Hn Hl. unfold FCNBlock_forward.
  rewrite conv1d_same_length by lia.
  unfold mbind at 1, result_bind at 1.
  rewrite batchnorm1d_ok by assumption. reflexivity.
Qed.

Lemma adaptive_avg_pool1d_ok n c l :
  1 <= c -> 1 <= l -> adaptive_avg_pool1d 1 [n; c; l] = Ok [n; c; 1].
Proof.
  intros Hc Hl. unfold adaptive_avg_pool1d.
  replace (0 <? c) with true by (symmetry; apply Nat.ltb_lt; lia).
  replace (0 <? l) with true by (symmetry; apply Nat.ltb_lt; lia).
  reflexivity.
Qed.

(** C4, amended.  For every number of classes [nb_classes >= 1], every
    batch size [b >= 1] and every input length [L >= 1], in training and
    in evaluation mode, the forward pass of [Classifier_FCN] on an input
    of shape [(b, 1, L)] is defined and its result has shape
    [(b, nb_classes)], whatever [L] is. *)
Theorem forward_shape_any_length (nb_classes : nat) (training : bool) (b L : nat) :
  1 <= nb_classes -> 1 <= b -> 1 <= L ->
  forward nb_classes training [b; 1; L] = Ok [b; nb_classes].
Proof.
  intros Hc Hb HL. unfold forward.
  rewrite conv1d_first by exact HL. unfold mbind at 1, result_bind at 1.
  rewrite batchnorm1d_ok by lia. unfold mbind at 1, result_bind at 1.
  unfold relu. unfold mbind at 1, result_bind at 1.
  rewrite FCNBlock_forward_ok by (unfold n_feature_maps; lia).
  unfold mbind at 1, result_bind at 1.
  rewrite FCNBlock_forward_ok by (unfold n_feature_maps; lia).
  unfold mbind at 1, result_bind at 1.
  rewrite FCNBlock_forward_ok by (unfold n_feature_maps; lia).
  unfold mbind at 1, result_bind at 1.
  rewrite adaptive_avg_pool1d_ok by (unfold n_feature_maps; lia).
  unfold mbind at 1, result_bind at 1.
  rewrite conv1d_pointwise by exact Hc. reflexivity.
Qed.

Lemma forward_shape_any_length_witness :
  forward 2 true [4; 1; 7] = Ok [4; 2].
Proof. apply (forward_shape_any_length 2 true 4 7); lia. Defined.

(** C4 as stated fails for a classifier built with no class: on an input
    of shape [(4, 1, 7)] the forward pass gets through the feature
    extractor and the pooling and raises at the projection [self.fc],
    whose weight has no output channel, in training and in evaluation
    mode; it returns no tensor of shape [(4, 0)]. *)
Lemma forward_shape_any_length_counterexample :
  forward 0 true [4; 1; 7] = Raise RuntimeError
  /\ forward 0 false [4; 1; 7] = Raise RuntimeError
  /\ forward 0 true [4; 1; 7] <> Ok [4; 0].
Proof. split; [reflexivity|]. split; [reflexivity | discriminate]. Qed.

End ShapeFacts.

(* ------------------------------------------------------------------ *)
(** ** The keys of [logs] *)

Lemma list_ascii_of_append (s1 s2 : string) :
  list_ascii_of_string (s1 +:+ s2)
  = list_ascii_of_string s1 ++ list_ascii_of_string s2.
Proof. induction s1 as [|c s1 IH]; simpl; [reflexivity | f_equal; exact IH]. Qed.

(** Two names with the same suffix appended are equal only if the names are. *)
Lemma append_inj_left (s1 s2 t : string) : s1 +:+ t = s2 +:+ t -> s1 = s2.
Proof.
  intros H. apply (f_equal list_ascii_of_string) in H.
  rewrite !list_ascii_of_append in H. apply app_inv_tail in H.
  rewrite <- (string_of_list_ascii_of_string s1), <- (string_of_list_ascii_of_string s2).
  f_equal. exact H.
Qed.

(** An accuracy key is never an F1 key: their last characters differ. *)
Lemma best_acc_key_ne_best_f1_key (n1 n2 : string) :
  n1 +:+ "_best_acc" <> n2 +:+ "_best_f1".
Proof.
  intros H. apply (f_equal list_ascii_of_string) in H.
  rewrite !list_ascii_of_append in H.
  apply (f_equal (@rev Ascii.ascii)) in H. rewrite !rev_app_distr in H.
  simpl in H. discriminate H.
Qed.

Lemma best_f1_key_ne_best_acc_key (n1 n2 : string) :
  n1 +:+ "_best_f1" <> n2 +:+ "_best_acc".
Proof. intros H. symmetry in H. exact (best_acc_key_ne_best_f1_key _ _ H). Qed.

(* ------------------------------------------------------------------ *)
(** ** One epoch *)

Section EpochFacts.
Context {B : Backend}.

(** C9.  [train_epoch] over an empty iterable of batches does not return:
    no batch is seen, [total] is still 0 and the division that computes
    the mean loss raises [ZeroDivisionError]; nothing guards the empty
    case. *)
Theorem train_epoch_empty_loader (self : Classifier) :
  train_epoch self [] = Raise ZeroDivisionError.
Proof. reflexivity. Qed.

Lemma argmax_length (t : tensor) :
  forall l : list nat, argmax t = Ok l -> length l = length t.
Proof.
  induction t as [|row t IH]; intros l H; simpl in H.
  - injection H as <-. reflexivity.
  - destruct (argmax_row row); simpl in H; [|discriminate].
    destruct (argmax t) as [rest|]; simpl in H; [|discriminate].
    injection H as <-. simpl. f_equal. apply IH. reflexivity.
Qed.

Lemma same_size_length (a : tensor) :
  forall b : tensor, same_size a b = true -> length a = length b.
Proof.
  induction a as [|r a IH]; intros [|t b] H; simpl in H; try discriminate.
  - reflexivity.
  - apply andb_true_iff in H as [_ H]. simpl. f_equal. apply IH. exact H.
Qed.

Lemma count_bounds {A : Type} (f : A -> bool) (l : list A) :
  (0 <= count f l <= Z.of_nat (length l))%Z.
Proof.
  unfold count. split; [lia|].
  apply Nat2Z.inj_le. induction l as [|x l IH]; simpl; [lia|].
  destruct (f x); simpl; lia.
Qed.

(** On two index vectors of the same length the match count is at most
    that length. *)
Lemma eq_sum_bounds (a b : list nat) (n : Z) :
  length a = length b -> eq_sum a b = Ok n -> (0 <= n <= Z.of_nat (length b))%Z.
Proof.
  intros Hlen H. unfold eq_sum in H.
  replace (length a =? length b)%nat with true in H
    by (symmetry; apply Nat.eqb_eq; exact Hlen).
  injection H as <-.
  pose proof (count_bounds (fun '(x, y) => (x =? y)%nat) (combine a b)) as Hc.
  rewrite length_combine in Hc. lia.
Qed.

(** The batch loop adds the number of examples of the loader to [total],
    and between nothing and that number to [correct]. *)
Lemma train_batches_counts (train_loader : list (tensor * tensor)) :
  forall (self self' : Classifier) (l l' : loss_val) (c c' t t' : Z),
  train_batches self train_loader l c t = Ok (self', (l', c', t')) ->
  t' = (t + examples train_loader)%Z
  /\ (c <= c' <= c + examples train_loader)%Z.
Proof.
  induction train_loader as [|[X y] batches IH]; intros self self' l l' c c' t t' H.
  - simpl in H. injection H as <- <- <- <-. simpl. lia.
  - simpl in H. unfold to_default_device in H.
    destruct (call self (unsqueeze1 X)) as [[s output]|]; simpl in H; [|discriminate].
    destruct (criterion output y) as [loss|] eqn:Hcrit; simpl in H; [|discriminate].
    destruct (backward_step (net s) (opt s) (unsqueeze1 X) y) as [n o].
    destruct (argmax output) as [pred|] eqn:Hpred; simpl in H; [|discriminate].
    destruct (argmax y) as [target|] eqn:Htarget; simpl in H; [|discriminate].
    destruct (eq_sum pred target) as [acc|] eqn:Hacc; simpl in H; [|discriminate].
    apply IH in H as [-> Hc].
    assert (Hsize : same_size output y = true).
    { unfold criterion in Hcrit. destruct (same_size output y); [reflexivity|].
      simpl in Hcrit. discriminate. }
    apply same_size_length in Hsize.
    apply argmax_length in Hpred, Htarget.
    apply eq_sum_bounds in Hacc; [|congruence].
    unfold examples at 1 3. simpl. fold (examples batches).
    unfold len. rewrite <- Htarget. lia.
Qed.

(** X17.  The second value of [train_epoch] is a count of correct predictions
    over the number of examples of the loader, which is not zero, and the
    count lies between 0 and that number. *)
Lemma train_epoch_accuracy_fraction (self self' : Classifier)
    (train_loader : list (tensor * tensor)) (loss : loss_val) (acc : Q) :
  train_epoch self train_loader = Ok (self', (loss, acc)) ->
  exists correct : Z,
    (0 <= correct <= examples train_loader)%Z
    /\ (0 < examples train_loader)%Z
    /\ acc = (inject_Z correct / inject_Z (examples train_loader))%Q.
Proof.
  unfold train_epoch. intros H.
  destruct (train_batches (set_training true self) train_loader (Finite 0) 0 0)
    as [[s [[l c] t]]|] eqn:Hb; simpl in H; [|discriminate].
  apply train_batches_counts in Hb as [-> Hc]. simpl in Hc.
  unfold loss_div, int_div in H.
  destruct (0 + examples train_loader =? 0)%Z eqn:Hz; simpl in H; [discriminate|].
  apply Z.eqb_neq in Hz.
  destruct l; simpl in H; injection H as <- <- <-; exists c;
    (split; [lia|]); (split; [lia|]); reflexivity.
Qed.

(** In evaluation mode a call leaves the classifier as it is. *)
Lemma call_eval (self self' : Classifier) (x : tensor3) (out : tensor) :
  training self = false -> call self x = Ok (self', out) -> self' = self.
Proof.
  intros Hmode. unfold call. rewrite Hmode.
  destruct (forward_eval (net self) x); simpl; congruence.
Qed.

(** [validate] returns the classifier it was given, switched to
    evaluation mode. *)
Lemma validate_classifier (self self' : Classifier) (test_data : tensor * tensor)
    (r : Q * Q) :
  validate self test_data = Ok (self', r) -> self' = set_training false self.
Proof.
  unfold validate. destruct test_data as [x y]. unfold to_default_device.
  destruct (call (set_training false self) (unsqueeze1 x)) as [[s out]|] eqn:Hcall;
    simpl; [|discriminate].
  apply call_eval in Hcall; [subst s | reflexivity].
  destruct (argmax out); simpl; [|discriminate].
  destruct (argmax y); simpl; [|discriminate].
  destruct (eq_sum _ _); simpl; [|discriminate].
  destruct (int_div _ _); simpl; [|discriminate].
  destruct (f1_score _ _); simpl; [|discriminate].
  congruence.
Qed.

(** The result of [validate] does not depend on the mode it is called in. *)
Lemma validate_mode (mode : bool) (self : Classifier) (test_data : tensor * tensor) :
  validate (set_training mode self) test_data = validate self test_data.
Proof. reflexivity. Qed.

(** C5.  For every classifier and every validation pair, a second call of
    [validate] right after a first one returns the same accuracy and F1,
    and [validate] leaves the parameters and buffers, and the optimizer
    state, as they were. *)
Theorem validate_twice (self self1 : Classifier) (test_data : tensor * tensor)
    (r : Q * Q) :
  validate self test_data = Ok (self1, r) ->
  validate self1 test_data = Ok (self1, r)
  /\ net self1 = net self /\ opt self1 = opt self.
Proof.
  intros H. pose proof (validate_classifier _ _ _ _ H) as ->.
  rewrite validate_mode. auto.
Qed.

End EpochFacts.

Lemma validate_twice_witness :
  let B := scripted square_loss (accuracy_script [7; 6; 5]%nat) in
  let self := {| net := 1%nat; opt := tt; training := true |} in
  let self1 := {| net := 1%nat; opt := tt; training := false |} in
  validate self1 ten_of_class0 = Ok (self1, (7 # 10, 420 # 510)%Q)
  /\ net self1 = net self /\ opt self1 = opt self.
Proof.
  intros B self self1.
  apply (validate_twice (B := B) self self1 ten_of_class0 (7 # 10, 420 # 510)%Q).
  vm_compute. reflexivity.
Defined.

(** C2.  On two examples whose logits are [0, 0] and whose targets are
    [1, 0], whatever the elementwise loss [loss] is: with both examples in
    one batch [train_epoch] returns a quarter of [loss 0 1 + loss 0 0] as
    its first value, with one example per batch it returns half of it;
    the mean loss per example is half of it in both cases, and the second
    value, the accuracy, is 1 in both. *)
Theorem train_epoch_loss_depends_on_batches (loss : Q -> Q -> Q) :
  let B := scripted loss (fun _ => []) in
  let self := {| net := 0%nat; opt := tt; training := false |} in
  let l := (loss 0 1 + loss 0 0)%Q in
  exists la lb,
    train_epoch self two_in_one_batch
      = Ok ({| net := 1%nat; opt := tt; training := true |}, (Finite la, 2 # 2)%Q)
    /\ train_epoch self two_in_two_batches
      = Ok ({| net := 2%nat; opt := tt; training := true |}, (Finite lb, 2 # 2)%Q)
    /\ (la == l / 4)%Q /\ (lb == l / 2)%Q
    /\ (spec_mean_loss_per_example [[0; 0]; [0; 0]] [[1; 0]; [1; 0]] == l / 2)%Q.
Proof.
  intros B self l. eexists. eexists.
  split; [reflexivity|]. split; [reflexivity|].
  subst l. unfold spec_mean_loss_per_example, example_loss, Qsum, len, numel.
  simpl.
  repeat match goal with
         | |- context [inject_Z ?z] =>
             let v := eval vm_compute in (inject_Z z) in change (inject_Z z) with v
         end.
  repeat split; field.
Qed.

(* ------------------------------------------------------------------ *)
(** ** Early stopping on recorded metrics *)

Lemma Qgtb_true (x y : Q) : Qgtb x y = true <-> (y < x)%Q.
Proof.
  unfold Qgtb. rewrite negb_true_iff. split; intros H.
  - apply Qnot_le_lt. intros Hle. apply Qle_bool_iff in Hle. congruence.
  - destruct (Qle_bool x y) eqn:E; [|reflexivity].
    apply Qle_bool_iff in E. exfalso. exact (Qlt_not_le _ _ H E).
Qed.

Lemma Qgtb_false (x y : Q) : Qgtb x y = false <-> (x <= y)%Q.
Proof.
  unfold Qgtb. rewrite negb_false_iff. apply Qle_bool_iff.
Qed.

Lemma beats_of_strictly_improving (best : Q) (m : Metrics) (ms : list Metrics) :
  (best < test_accuracy m)%Q ->
  strictly_improving (map test_accuracy (m :: ms)) ->
  beats best (m :: ms).
Proof.
  revert best m. induction ms as [|m' ms IH]; intros best m Hb Hs.
  - simpl. auto.
  - destruct Hs as [Hlt Hs]. split; [exact Hb|]. apply IH; assumption.
Qed.

Lemma below_of_non_increasing (m : Metrics) (ms : list Metrics) :
  non_increasing (map test_accuracy (m :: ms)) ->
  Forall (fun m' => (test_accuracy m' <= test_accuracy m)%Q) ms.
Proof.
  revert m. induction ms as [|m' ms IH]; intros m Hn.
  - constructor.
  - destruct Hn as [Hle Hn]. constructor; [exact Hle|].
    specialize (IH m' Hn).
    eapply Forall_impl; [exact IH|].
    intros x Hx. simpl in Hx. eapply Qle_trans; eassumption.
Qed.

(** While every epoch improves, the replay goes on, and it leaves the
    last epoch's accuracy and F1 as the best pair with no stall. *)
Lemma early_stopping_improving (patience : Z) (front : list Metrics) :
  forall (m : Metrics) (rest : list Metrics) (epoch : nat) (a f : Q) (c : Z),
  beats a (front ++ [m]) ->
  early_stopping patience epoch ((front ++ [m]) ++ rest) a f c
  = early_stopping patience (epoch + length front + 1) rest
      (test_accuracy m) (test_f1 m) 0.
Proof.
  induction front as [|x front IH]; intros m rest epoch a f c Hb.
  - destruct Hb as [Hb _]. simpl.
    apply Qgtb_true in Hb. rewrite Hb.
    replace (epoch + 0 + 1)%nat with (S epoch) by lia. reflexivity.
  - destruct Hb as [Hb Hrest]. simpl.
    apply Qgtb_true in Hb. rewrite Hb.
    rewrite (IH m rest (S epoch) _ _ 0%Z Hrest).
    f_equal. simpl. lia.
Qed.

(** Epochs that do not beat the best make the counter grow by one each;
    when there are exactly as many as the patience still allows, the
    replay stops at the last of them. *)
Lemma early_stopping_stalling (patience : Z) (ms : list Metrics) :
  forall (epoch : nat) (a f : Q) (c : Z),
  Forall (fun m => (test_accuracy m <= a)%Q) ms ->
  ms <> [] ->
  (c + Z.of_nat (length ms) = patience)%Z ->
  early_stopping patience epoch ms a f c
  = (a, f, patience, StoppedEarly (epoch + length ms - 1)).
Proof.
  induction ms as [|m ms IH]; intros epoch a f c Hall Hne Hlen; [congruence|].
  pose proof (Forall_inv Hall) as Hm. pose proof (Forall_inv_tail Hall) as Hms.
  simpl in Hm. simpl. apply Qgtb_false in Hm. rewrite Hm.
  destruct ms as [|m' ms'].
  - simpl in Hlen. simpl length.
    replace (patience <=? c + 1)%Z with true by (symmetry; apply Z.leb_le; lia).
    replace (epoch + 1 - 1)%nat with epoch by lia.
    replace (c + 1)%Z with patience by lia. reflexivity.
  - replace (patience <=? c + 1)%Z with false
      by (symmetry; apply Z.leb_gt; simpl length in Hlen; lia).
    rewrite (IH (S epoch) a f (c + 1)%Z Hms); [| discriminate | simpl length in *; lia].
    do 2 f_equal. simpl length. lia.
Qed.

(** A patience of zero or less stops at the first epoch that does not
    improve. *)
Lemma early_stopping_no_patience (patience : Z) (m : Metrics) (ms : list Metrics)
    (epoch : nat) (a f : Q) (c : Z) :
  (test_accuracy m <= a)%Q -> (patience <= c + 1)%Z ->
  early_stopping patience epoch (m :: ms) a f c
  = (a, f, (c + 1)%Z, StoppedEarly epoch).
Proof.
  intros Hm Hp. simpl. apply Qgtb_false in Hm. rewrite Hm.
  replace (patience <=? c + 1)%Z with true by (symmetry; apply Z.leb_le; lia).
  reflexivity.
Qed.

(** The best pair of the replay is the running best of the epochs it
    consumed, when it consumed them all. *)
Lemma early_stopping_running_best (patience : Z) (ms : list Metrics) :
  forall (epoch : nat) (a f : Q) (c : Z) (a' f' : Q) (c' : Z) (ex : loop_exit),
  early_stopping patience epoch ms a f c = (a', f', c', ex) ->
  ex = Completed \/ ex = StoppedEarly (epoch + length ms - 1) ->
  running_best ms (a, f) = (a', f').
Proof.
  induction ms as [|m ms IH]; intros epoch a f c a' f' c' ex H Hex.
  - simpl in H. inversion H; subst. reflexivity.
  - simpl in H. unfold running_best. simpl. unfold keep_best at 2. simpl fst.
    destruct (Qgtb (test_accuracy m) a) eqn:E.
    + apply (IH _ _ _ _ _ _ _ _ H).
      destruct Hex as [->| ->]; [left; reflexivity | right; f_equal; simpl; lia].
    + destruct (patience <=? c + 1)%Z eqn:Ep.
      * inversion H; subst. destruct Hex as [Hex|Hex]; [discriminate|].
        injection Hex as Hex. destruct ms; [reflexivity | simpl in Hex; lia].
      * apply (IH _ _ _ _ _ _ _ _ H).
        destruct Hex as [->| ->]; [left; reflexivity | right; f_equal; simpl; lia].
Qed.

(** The running best is either the pair it started from, no epoch having
    beaten it, or the accuracy and the F1 of one and the same epoch: an
    epoch above the start and above every epoch before it, and not below
    any epoch after it. *)
Lemma running_best_split (ms : list Metrics) :
  forall (a f a' f' : Q),
  running_best ms (a, f) = (a', f') ->
  (a' = a /\ f' = f /\ Forall (fun m => (test_accuracy m <= a)%Q) ms)
  \/ (exists before m after,
        ms = before ++ m :: after
        /\ a' = test_accuracy m /\ f' = test_f1 m
        /\ (a < test_accuracy m)%Q
        /\ Forall (fun m' => (test_accuracy m' < test_accuracy m)%Q) before
        /\ Forall (fun m' => (test_accuracy m' <= test_accuracy m)%Q) after).
Proof.
  induction ms as [|m ms IH]; intros a f a' f' H.
  - inversion H; subst. left. auto.
  - unfold running_best in H. simpl in H. unfold keep_best at 2 in H. simpl fst in H.
    destruct (Qgtb (test_accuracy m) a) eqn:E.
    + apply Qgtb_true in E.
      destruct (IH _ _ _ _ H) as [(-> & -> & Hall) | (before & m' & after & -> & -> & -> & Hlt & Hb & Ha)].
      * right. exists [], m, ms. simpl. auto 10.
      * right. exists (m :: before), m', after. simpl.
        repeat split; auto.
        eapply Qlt_trans; eassumption.
    + apply Qgtb_false in E.
      destruct (IH _ _ _ _ H) as [(-> & -> & Hall) | (before & m' & after & -> & -> & -> & Hlt & Hb & Ha)].
      * left. auto.
      * right. exists (m :: before), m', after. simpl.
        repeat split; auto.
        constructor; [|assumption]. eapply Qle_lt_trans; eassumption.
Qed.

(* ------------------------------------------------------------------ *)
(** ** The epoch loop follows the replay *)

Section LoopFacts.
Context {B : Backend}.
Variable config : Config.
Variable train_loader : list (tensor * tensor).
Variable test_data : tensor * tensor.

Lemma log_epochs_nil (w : World) : log_epochs config [] w = w.
Proof.
  unfold log_epochs. destruct (WANDB config); [|reflexivity].
  destruct w. simpl. rewrite app_nil_r. reflexivity.
Qed.

Lemma log_epochs_cons (m : Metrics) (ms : list Metrics) (w : World) :
  log_epochs config (m :: ms) w = log_epochs config ms (log_epochs config [m] w).
Proof.
  unfold log_epochs. destruct (WANDB config); [|reflexivity].
  simpl. rewrite <- app_assoc. reflexivity.
Qed.

Lemma stdout_log_epochs (ms : list Metrics) (w : World) :
  stdout (log_epochs config ms w) = stdout w.
Proof. unfold log_epochs. destruct (WANDB config); reflexivity. Qed.

Lemma stdout_started (name : string) (w : World) :
  stdout (started config name w) = stdout w.
Proof. unfold started. destruct (WANDB config); reflexivity. Qed.

Lemma stdout_finished (name : string) (n : Net) (best : Q) (w : World) :
  stdout (finished config name n best w)
  = stdout w ++ BestAccLine best
      :: (if SAVE_CLASSIFIER config then [SavedLine (get_model_path config name)] else []).
Proof.
  unfold finished.
  destruct (WANDB config), (SAVE_CLASSIFIER config); simpl;
    rewrite <- ?app_assoc; reflexivity.
Qed.

(** One iteration of the loop, once the epoch has been run. *)
Lemma epoch_loop_cons (epoch : nat) (epochs : list nat) (st : LoopState)
    (self : Classifier) (m : Metrics) :
  run_epoch (ls_self st) train_loader test_data = Ok (self, m) ->
  epoch_loop config train_loader test_data (epoch :: epochs) st
  = if Qgtb (test_accuracy m) (best_acc st) then
      epoch_loop config train_loader test_data epochs
        {| ls_self := self; best_acc := test_accuracy m; best_f1 := test_f1 m;
           early_stop_counter := 0;
           ls_world := log_epochs config [m] (ls_world st) |}
    else if (EARLY_STOP_PATIENCE config <=? early_stop_counter st + 1)%Z then
      Ok ({| ls_self := self; best_acc := best_acc st; best_f1 := best_f1 st;
             early_stop_counter := (early_stop_counter st + 1)%Z;
             ls_world := print (EarlyStopLine epoch)
                               (log_epochs config [m] (ls_world st)) |},
          StoppedEarly epoch)
    else
      epoch_loop config train_loader test_data epochs
        {| ls_self := self; best_acc := best_acc st; best_f1 := best_f1 st;
           early_stop_counter := (early_stop_counter st + 1)%Z;
           ls_world := log_epochs config [m] (ls_world st) |}.
Proof.
  intros Hrun. unfold run_epoch in Hrun. simpl epoch_loop.
  destruct (train_epoch (ls_self st) train_loader) as [[s1 [l a]]|]; simpl in *;
    [|discriminate].
  destruct (validate s1 test_data) as [[s2 [ta tf]]|]; simpl in *; [|discriminate].
  injection Hrun as <- <-. simpl.
  replace (log_epochs config _ (ls_world st))
    with (if WANDB config
          then wandb_call (WandbLog {| train_loss := l; train_accuracy := a;
                                       test_accuracy := ta; test_f1 := tf |})
                          (ls_world st)
          else ls_world st)
    by (unfold log_epochs; destruct (WANDB config); reflexivity).
  reflexivity.
Qed.

(** An epoch that raises ends the loop with its exception. *)
Lemma epoch_loop_raise (epoch : nat) (epochs : list nat) (st : LoopState) (e : exn) :
  run_epoch (ls_self st) train_loader test_data = Raise e ->
  epoch_loop config train_loader test_data (epoch :: epochs) st = Raise e.
Proof.
  intros Hrun. unfold run_epoch in Hrun. simpl epoch_loop.
  destruct (train_epoch (ls_self st) train_loader) as [[s1 [l a]]|]; simpl in *;
    [|congruence].
  destruct (validate s1 test_data) as [[s2 [ta tf]]|]; simpl in *; congruence.
Qed.

(** If the first [n] epochs can be run and the replay of their metrics
    does not stop before the last of them, the loop runs exactly these
    epochs: it goes on with the remaining ones when the replay completes,
    and it breaks at the last one when the replay stops there. *)
Lemma epoch_loop_observed (n : nat) :
  forall (e0 : nat) (epochs : list nat) (st : LoopState) (self' : Classifier)
         (ms : list Metrics) (a f : Q) (c : Z) (ex : loop_exit),
  observe n (ls_self st) train_loader test_data = Ok (self', ms) ->
  early_stopping (EARLY_STOP_PATIENCE config) e0 ms
    (best_acc st) (best_f1 st) (early_stop_counter st) = (a, f, c, ex) ->
  ex = Completed \/ ex = StoppedEarly (e0 + n - 1) ->
  epoch_loop config train_loader test_data (seq e0 n ++ epochs) st
  = match ex with
    | Completed =>
        epoch_loop config train_loader test_data epochs
          {| ls_self := self'; best_acc := a; best_f1 := f; early_stop_counter := c;
             ls_world := log_epochs config ms (ls_world st) |}
    | StoppedEarly e =>
        Ok ({| ls_self := self'; best_acc := a; best_f1 := f; early_stop_counter := c;
               ls_world := print (EarlyStopLine e)
                                 (log_epochs config ms (ls_world st)) |}, ex)
    end.
Proof.
  induction n as [|n IH]; intros e0 epochs st self' ms a f c ex Hobs Hes Hex.
  - simpl in Hobs. injection Hobs as <- <-. simpl in Hes. injection Hes as <- <- <- <-.
    simpl. rewrite log_epochs_nil. destruct st; reflexivity.
  - simpl in Hobs.
    destruct (run_epoch (ls_self st) train_loader test_data) as [[s1 m]|] eqn:Hrun;
      simpl in Hobs; [|discriminate].
    destruct (observe n s1 train_loader test_data) as [[s2 ms']|] eqn:Hrest;
      simpl in Hobs; [|discriminate].
    injection Hobs as <- <-.
    simpl seq. simpl app. rewrite (epoch_loop_cons _ _ _ _ _ Hrun).
    simpl in Hes.
    assert (Hex' : ex = Completed \/ ex = StoppedEarly (S e0 + n - 1)).
    { destruct Hex as [->| ->]; [left; reflexivity | right; f_equal; lia]. }
    destruct (Qgtb (test_accuracy m) (best_acc st)).
    + match goal with
      | |- epoch_loop _ _ _ _ ?st0 = _ =>
          rewrite (IH (S e0) epochs st0 s2 ms' a f c ex Hrest Hes Hex')
      end.
      simpl ls_world. rewrite <- log_epochs_cons. reflexivity.
    + destruct (EARLY_STOP_PATIENCE config <=? early_stop_counter st + 1)%Z.
      * injection Hes as <- <- <- <-.
        destruct Hex as [Hex|Hex]; [discriminate|].
        injection Hex as Hex. assert (n = 0)%nat as -> by lia.
        simpl in Hrest. injection Hrest as <- <-. reflexivity.
      * match goal with
      | |- epoch_loop _ _ _ _ ?st0 = _ =>
          rewrite (IH (S e0) epochs st0 s2 ms' a f c ex Hrest Hes Hex')
      end.
        simpl ls_world. rewrite <- log_epochs_cons. reflexivity.
Qed.

(** Conversely, when the loop over [k] epochs returns, the epochs it ran
    can be run, the classifier it leaves is theirs, and its best pair is
    their running best; it ran all [k] epochs when it completed, and the
    epochs up to [e] when it stopped at [e]. *)
Lemma epoch_loop_inv (k : nat) :
  forall (e0 : nat) (st st' : LoopState) (ex : loop_exit),
  epoch_loop config train_loader test_data (seq e0 k) st = Ok (st', ex) ->
  exists ms : list Metrics,
    observe (length ms) (ls_self st) train_loader test_data = Ok (ls_self st', ms)
    /\ running_best ms (best_acc st, best_f1 st) = (best_acc st', best_f1 st')
    /\ match ex with
       | Completed => length ms = k
       | StoppedEarly e => (e0 <= e < e0 + k)%nat /\ length ms = (e - e0 + 1)%nat
       end.
Proof.
  induction k as [|k IH]; intros e0 st st' ex H.
  - simpl in H. injection H as <- <-. exists []. simpl. auto.
  - simpl seq in H.
    destruct (run_epoch (ls_self st) train_loader test_data) as [[s1 m]|e] eqn:Hrun.
    2: { rewrite (epoch_loop_raise _ _ _ _ Hrun) in H. discriminate. }
    rewrite (epoch_loop_cons _ _ _ _ _ Hrun) in H.
    destruct (Qgtb (test_accuracy m) (best_acc st)) eqn:E.
    + apply IH in H as (ms & Hobs & Hbest & Hlen). simpl in Hobs, Hbest.
      exists (m :: ms). simpl observe. rewrite Hrun. simpl. rewrite Hobs. simpl.
      split; [reflexivity|]. split.
      * unfold running_best. simpl. unfold keep_best at 2. simpl fst. rewrite E.
        exact Hbest.
      * destruct ex; simpl; lia.
    + destruct (EARLY_STOP_PATIENCE config <=? early_stop_counter st + 1)%Z.
      * injection H as <- <-. exists [m]. simpl observe. rewrite Hrun. simpl.
        split; [reflexivity|]. split.
        -- unfold running_best. simpl. unfold keep_best. simpl fst. rewrite E.
           reflexivity.
        -- simpl. lia.
      * apply IH in H as (ms & Hobs & Hbest & Hlen). simpl in Hobs, Hbest.
        exists (m :: ms). simpl observe. rewrite Hrun. simpl. rewrite Hobs. simpl.
        split; [reflexivity|]. split.
        -- unfold running_best. simpl. unfold keep_best at 2. simpl fst. rewrite E.
           exact Hbest.
        -- destruct ex; simpl; lia.
Qed.

(** [train_classifier] is the loop between [started] and [finished], and
    it writes the two entries of the best pair into [logs]. *)
Lemma train_classifier_loop (self : Classifier) (logs : gmap string Q)
    (name : string) (w : World) :
  train_classifier self train_loader test_data config logs name w
  = '(st, _) ← epoch_loop config train_loader test_data (range (NUM_EPOCHS config))
                 {| ls_self := self; best_acc := 0; best_f1 := 0;
                    early_stop_counter := 0; ls_world := started config name w |};
    Ok (ls_self st,
        <[name +:+ "_best_f1" := best_f1 st]>
          (<[name +:+ "_best_acc" := best_acc st]> logs),
        finished config name (net (ls_self st)) (best_acc st) (ls_world st)).
Proof. reflexivity. Qed.

(** The run of [train_classifier] when the first [n] epochs can be run and
    the replay of their metrics either completes with [n] the number of
    configured epochs, or stops at the last of them. *)
Lemma train_classifier_observed (n : nat) (self self' : Classifier)
    (ms : list Metrics) (a f : Q) (c : Z) (ex : loop_exit)
    (logs : gmap string Q) (name : string) (w : World) :
  observe n self train_loader test_data = Ok (self', ms) ->
  early_stopping (EARLY_STOP_PATIENCE config) 0 ms 0 0 0 = (a, f, c, ex) ->
  (ex = Completed /\ n = Z.to_nat (NUM_EPOCHS config))
  \/ (ex = StoppedEarly (n - 1) /\ (n <= Z.to_nat (NUM_EPOCHS config))%nat) ->
  train_classifier self train_loader test_data config logs name w
  = Ok (self',
        <[name +:+ "_best_f1" := f]> (<[name +:+ "_best_acc" := a]> logs),
        finished config name (net self') a
          (match ex with
           | Completed => log_epochs config ms (started config name w)
           | StoppedEarly e =>
               print (EarlyStopLine e) (log_epochs config ms (started config name w))
           end)).
Proof.
  intros Hobs Hes Hex. rewrite train_classifier_loop. unfold range.
  replace (Z.to_nat (NUM_EPOCHS config))
    with (n + (Z.to_nat (NUM_EPOCHS config) - n))%nat by (destruct Hex as [[_ ?]|[_ ?]]; lia).
  rewrite seq_app.
  rewrite (epoch_loop_observed n 0 _ _ self' ms a f c ex); try assumption.
  - destruct Hex as [[-> Hn]|[-> Hn]]; simpl.
    + replace (Z.to_nat (NUM_EPOCHS config) - n)%nat with 0%nat by lia. reflexivity.
    + reflexivity.
  - destruct Hex as [[-> _]|[-> _]]; [left | right]; reflexivity.
Qed.

End LoopFacts.

(* ------------------------------------------------------------------ *)
(** ** Early stopping in [train_classifier] *)

Lemma observe_app {B : Backend} (train_loader : list (tensor * tensor))
    (test_data : tensor * tensor) (n k : nat) :
  forall (self self' : Classifier) (ms : list Metrics),
  observe (n + k) self train_loader test_data = Ok (self', ms) ->
  exists self1,
    observe n self train_loader test_data = Ok (self1, firstn n ms)
    /\ observe k self1 train_loader test_data = Ok (self', skipn n ms).
Proof.
  induction n as [|n IH]; intros self self' ms H.
  - exists self. simpl. auto.
  - simpl in H.
    destruct (run_epoch self train_loader test_data) as [[s1 m]|] eqn:Hrun;
      simpl in H; [|discriminate].
    destruct (observe (n + k) s1 train_loader test_data) as [[s2 ms']|] eqn:Hrest;
      simpl in H; [|discriminate].
    injection H as <- <-.
    destruct (IH _ _ _ Hrest) as (self1 & H1 & H2).
    exists self1. simpl. rewrite Hrun. simpl. rewrite H1. simpl. auto.
Qed.

(** A match count is not negative. *)
Lemma eq_sum_nonneg (a b : list nat) (n : Z) : eq_sum a b = Ok n -> (0 <= n)%Z.
Proof.
  unfold eq_sum, count. destruct (length a =? length b)%nat.
  - intros H. injection H as <-. lia.
  - destruct a as [|x [|x' a]]; destruct b as [|y [|y' b]]; intros H;
      first [discriminate H | injection H as <-; lia].
Qed.

(** The accuracy that [validate] returns is not negative. *)
Lemma validate_accuracy_nonneg {B : Backend} (self self' : Classifier)
    (test_data : tensor * tensor) (accuracy f1 : Q) :
  validate self test_data = Ok (self', (accuracy, f1)) -> (0 <= accuracy)%Q.
Proof.
  unfold validate, to_default_device. destruct test_data as [x y]. intros H.
  destruct (call (set_training false self) (unsqueeze1 x)) as [[s out]|];
    simpl in H; [|discriminate].
  destruct (argmax out) as [pred|]; simpl in H; [|discriminate].
  destruct (argmax y) as [target|]; simpl in H; [|discriminate].
  destruct (eq_sum pred target) as [matches|] eqn:Hm; simpl in H; [|discriminate].
  unfold int_div in H.
  destruct (len y =? 0)%Z; simpl in H; [discriminate|].
  destruct (f1_score target pred) as [f|]; simpl in H; [|discriminate].
  injection H as _ <- _.
  apply eq_sum_nonneg in Hm.
  unfold Qdiv. apply Qmult_le_0_compat.
  - change 0%Q with (inject_Z 0). rewrite <- Zle_Qle. exact Hm.
  - apply Qinv_le_0_compat. change 0%Q with (inject_Z 0). rewrite <- Zle_Qle.
    unfold len. lia.
Qed.

(** Every test accuracy of a sequence of epochs is not negative. *)
Lemma observe_accuracy_nonneg {B : Backend} (train_loader : list (tensor * tensor))
    (test_data : tensor * tensor) (n : nat) :
  forall (self self' : Classifier) (ms : list Metrics),
  observe n self train_loader test_data = Ok (self', ms) ->
  Forall (fun m => (0 <= test_accuracy m)%Q) ms.
Proof.
  induction n as [|n IH]; intros self self' ms H; simpl in H.
  - injection H as _ <-. constructor.
  - destruct (run_epoch self train_loader test_data) as [[s1 m]|] eqn:Hrun;
      simpl in H; [|discriminate].
    destruct (observe n s1 train_loader test_data) as [[s2 ms']|] eqn:Hrest;
      simpl in H; [|discriminate].
    injection H as _ <-. constructor; [|eapply IH; exact Hrest].
    unfold run_epoch in Hrun.
    destruct (train_epoch self train_loader) as [[s0 [l a]]|]; simpl in Hrun;
      [|discriminate].
    destruct (validate s0 test_data) as [[s3 [ta tf]]|] eqn:Hv; simpl in Hrun;
      [|discriminate].
    injection Hrun as _ <-. simpl. eapply validate_accuracy_nonneg. exact Hv.
Qed.

Section EarlyStop.
Context {B : Backend}.
Variable config : Config.
Variable train_loader : list (tensor * tensor).
Variable test_data : tensor * tensor.

(** A run whose replay stops at the last of the epochs [ms]. *)
Lemma train_classifier_stops (self self' : Classifier) (ms : list Metrics)
    (a f : Q) (c : Z) (logs : gmap string Q) (name : string) (w : World) :
  observe (length ms) self train_loader test_data = Ok (self', ms) ->
  early_stopping (EARLY_STOP_PATIENCE config) 0 ms 0 0 0
    = (a, f, c, StoppedEarly (length ms - 1)) ->
  (Z.of_nat (length ms) <= NUM_EPOCHS config)%Z ->
  exists w',
    train_classifier self train_loader test_data config logs name w
    = Ok (self', <[name +:+ "_best_f1" := f]> (<[name +:+ "_best_acc" := a]> logs), w')
    /\ stdout w' = stdout w ++ stopped_output config name (length ms - 1) a.
Proof.
  intros Hobs Hes Hn. eexists. split.
  - apply (train_classifier_observed config train_loader test_data
             (length ms) self self' ms a f c _ logs name w Hobs Hes).
    right. split; [reflexivity | lia].
  - rewrite stdout_finished. simpl. rewrite stdout_log_epochs, stdout_started.
    rewrite <- app_assoc. reflexivity.
Qed.

(** A run whose replay completes on the configured number of epochs. *)
Lemma train_classifier_completes (self self' : Classifier) (ms : list Metrics)
    (a f : Q) (c : Z) (logs : gmap string Q) (name : string) (w : World) :
  observe (length ms) self train_loader test_data = Ok (self', ms) ->
  early_stopping (EARLY_STOP_PATIENCE config) 0 ms 0 0 0 = (a, f, c, Completed) ->
  length ms = Z.to_nat (NUM_EPOCHS config) ->
  exists w',
    train_classifier self train_loader test_data config logs name w
    = Ok (self', <[name +:+ "_best_f1" := f]> (<[name +:+ "_best_acc" := a]> logs), w')
    /\ stdout w' = stdout w ++ completed_output config name a.
Proof.
  intros Hobs Hes Hn. eexists. split.
  - apply (train_classifier_observed config train_loader test_data
             (length ms) self self' ms a f c _ logs name w Hobs Hes).
    left. split; [reflexivity | assumption].
  - rewrite stdout_finished. rewrite stdout_log_epochs, stdout_started. reflexivity.
Qed.

(** C1, amended.  Let the epochs [0..k+P] measure the metrics
    [front ++ m :: tail], [m] being those of epoch [k = length front] and
    [P = length tail = EARLY_STOP_PATIENCE >= 1].  If the accuracies
    strictly improve up to epoch [k] and are non-increasing from epoch [k]
    on, [NUM_EPOCHS > k + P], and either the first accuracy is positive
    or [k >= 1] and [P >= 2] (a first accuracy of 0 is then one stall that
    the second epoch resets), then [train_classifier] returns the
    classifier left by exactly these [k + P + 1] epochs, prints the early
    stop at epoch [k + P] and nothing else before the best accuracy, and
    records the accuracy and the F1 of epoch [k] as the best. *)
Theorem early_stop_at_k_plus_patience (self self' : Classifier)
    (front : list Metrics) (m : Metrics) (tail : list Metrics)
    (logs : gmap string Q) (name : string) (w : World) :
  (1 <= EARLY_STOP_PATIENCE config)%Z ->
  EARLY_STOP_PATIENCE config = Z.of_nat (length tail) ->
  (Z.of_nat (length front) + EARLY_STOP_PATIENCE config < NUM_EPOCHS config)%Z ->
  observe (length front + length tail + 1) self train_loader test_data
    = Ok (self', front ++ m :: tail) ->
  ((0 < test_accuracy (hd m front))%Q
   \/ ((1 <= length front)%nat /\ (2 <= EARLY_STOP_PATIENCE config)%Z)) ->
  strictly_improving (map test_accuracy (front ++ [m])) ->
  non_increasing (map test_accuracy (m :: tail)) ->
  exists w',
    train_classifier self train_loader test_data config logs name w
    = Ok (self',
          <[name +:+ "_best_f1" := test_f1 m]>
            (<[name +:+ "_best_acc" := test_accuracy m]> logs), w')
    /\ stdout w'
       = stdout w ++ stopped_output config name (length front + length tail) (test_accuracy m).
Proof.
  intros Hp1 Hp Hn Hobs Hfirst Himp Hnon.
  assert (Hlen : length (front ++ m :: tail) = (length front + length tail + 1)%nat).
  { rewrite length_app. simpl. lia. }
  assert (Hbelow : Forall (fun m' => (test_accuracy m' <= test_accuracy m)%Q) tail)
    by (apply below_of_non_increasing; assumption).
  assert (Htail : tail <> []) by (intros ->; simpl in Hp; lia).
  assert (Hgo : forall (ms : list Metrics) (epoch : nat) (a f : Q) (c : Z),
             beats a (ms ++ [m]) ->
             early_stopping (EARLY_STOP_PATIENCE config) epoch (ms ++ m :: tail) a f c
             = (test_accuracy m, test_f1 m, EARLY_STOP_PATIENCE config,
                StoppedEarly (epoch + length ms + length tail))).
  { intros ms epoch a f c Hb.
    replace (ms ++ m :: tail) with ((ms ++ [m]) ++ tail)
      by (rewrite <- app_assoc; reflexivity).
    rewrite early_stopping_improving by exact Hb.
    rewrite (early_stopping_stalling _ tail _ _ _ 0%Z Hbelow Htail) by lia.
    f_equal. f_equal. destruct tail; [congruence | simpl; lia]. }
  assert (Hes : early_stopping (EARLY_STOP_PATIENCE config) 0 (front ++ m :: tail) 0 0 0
                = (test_accuracy m, test_f1 m, EARLY_STOP_PATIENCE config,
                   StoppedEarly (length (front ++ m :: tail) - 1))).
  { rewrite Hlen.
    destruct front as [|x front'].
    - (* k = 0: the first accuracy is positive *)
      destruct Hfirst as [Hpos | [Hk _]]; [|simpl in Hk; lia].
      rewrite (Hgo [] 0%nat 0%Q 0%Q 0%Z) by (simpl; simpl in Hpos; auto).
      f_equal. f_equal. simpl. lia.
    - destruct (Qlt_le_dec 0 (test_accuracy x)) as [Hpos | Hzero].
      + rewrite (Hgo (x :: front') 0%nat 0%Q 0%Q 0%Z)
          by (apply beats_of_strictly_improving; assumption).
        f_equal. f_equal. simpl. lia.
      + (* the first epoch stalls, the second one resets the counter *)
        destruct Hfirst as [Hpos | [_ Hp2]];
          [exfalso; simpl in Hpos; exact (Qlt_not_le _ _ Hpos Hzero)|].
        pose proof (observe_accuracy_nonneg _ _ _ _ _ _ Hobs) as Hnonneg.
        apply Forall_inv in Hnonneg. simpl in Hnonneg.
        simpl app. simpl early_stopping.
        replace (Qgtb (test_accuracy x) 0) with false
          by (symmetry; apply Qgtb_false; exact Hzero).
        replace (EARLY_STOP_PATIENCE config <=? 0 + 1)%Z with false
          by (symmetry; apply Z.leb_gt; lia).
        assert (Hb : beats 0 (front' ++ [m])).
        { destruct front' as [|y front''].
          - simpl. simpl in Himp. destruct Himp as [Hlt _].
            split; [|exact I]. eapply Qle_lt_trans; eassumption.
          - simpl in Himp. destruct Himp as [Hlt Himp].
            apply beats_of_strictly_improving; [|exact Himp].
            eapply Qle_lt_trans; eassumption. }
        rewrite (Hgo front' 1%nat 0%Q 0%Q (0 + 1)%Z Hb).
        f_equal. f_equal. simpl. lia. }
  destruct (train_classifier_stops self self' (front ++ m :: tail)
              (test_accuracy m) (test_f1 m) (EARLY_STOP_PATIENCE config) logs name w)
    as (w' & Hrun & Hout).
  - rewrite Hlen. exact Hobs.
  - exact Hes.
  - rewrite Hlen. lia.
  - exists w'. split; [exact Hrun|]. rewrite Hout. do 2 f_equal.
    rewrite Hlen. lia.
Qed.

End EarlyStop.

Lemma early_stop_at_k_plus_patience_witness :
  let cs := [0; 5; 4; 4; 9]%nat in
  let B := scripted square_loss (accuracy_script cs) in
  let m := nth 1 (scripted_metrics cs 4) (Build_Metrics NaN 0 0 0) in
  exists w',
    train_classifier (untrained square_loss (accuracy_script cs)) one_batch ten_of_class0
      (quiet_config 5 2) ∅ "clf" empty_world
    = Ok (@Build_Classifier B 4%nat tt false,
          <["clf" +:+ "_best_f1" := test_f1 m]>
            (<["clf" +:+ "_best_acc" := test_accuracy m]> ∅), w')
    /\ stdout w'
       = stdout (@empty_world B) ++ stopped_output (quiet_config 5 2) "clf" 3 (test_accuracy m).
Proof.
  intros cs B m.
  apply (early_stop_at_k_plus_patience (B := B) (quiet_config 5 2) one_batch ten_of_class0
           (untrained square_loss (accuracy_script cs)) (@Build_Classifier B 4%nat tt false)
           (firstn 1 (scripted_metrics cs 4)) m (skipn 2 (scripted_metrics cs 4))
           ∅ "clf" empty_world).
  - simpl. lia.
  - reflexivity.
  - simpl. lia.
  - vm_compute. reflexivity.
  - right. split; [simpl; lia | simpl; lia].
  - evaluated.
  - evaluated.
Defined.

(** C1 as stated fails in three ways.  With a patience of 0 and the
    accuracies 0.5, 0.4, 0.3 ([k = 0], [NUM_EPOCHS = 3 > k + P]) the loop
    breaks at epoch 1, not at epoch [k + P = 0].  With a patience of 1 and
    the accuracies 0, 0.5, 0.4 ([k = 1], [NUM_EPOCHS = 4 > k + P]) the loop
    breaks at epoch 0 with a best accuracy of 0, not at epoch 2 with 0.5.
    With a patience of 2 and the accuracies 0, 0, 0 ([k = 0],
    [NUM_EPOCHS = 3 > k + P]) the loop breaks at epoch 1, not at epoch 2. *)
Lemma early_stop_at_k_plus_patience_counterexample :
  (map test_accuracy (scripted_metrics [5; 4; 3]%nat 3) = [0.5; 0.4; 0.3]%Q
   /\ exists self' logs' w',
        train_classifier (untrained square_loss (accuracy_script [5; 4; 3]%nat))
          one_batch ten_of_class0 (quiet_config 3 0) ∅ "clf" empty_world
        = Ok (self', logs', w')
        /\ stdout w' = [EarlyStopLine 1; BestAccLine 0.5%Q]
        /\ ~ In (EarlyStopLine 0) (stdout w'))
  /\ (map test_accuracy (scripted_metrics [0; 5; 4]%nat 3) = [0 # 10; 0.5; 0.4]%Q
      /\ exists self' logs' w',
           train_classifier (untrained square_loss (accuracy_script [0; 5; 4]%nat))
             one_batch ten_of_class0 (quiet_config 4 1) ∅ "clf" empty_world
           = Ok (self', logs', w')
           /\ stdout w' = [EarlyStopLine 0; BestAccLine 0%Q]
           /\ ~ In (EarlyStopLine 2) (stdout w')
           /\ logs' !! "clf_best_acc" = Some 0%Q)
  /\ (map test_accuracy (scripted_metrics [0; 0; 0]%nat 3) = [0 # 10; 0 # 10; 0 # 10]%Q
      /\ exists self' logs' w',
           train_classifier (untrained square_loss (accuracy_script [0; 0; 0]%nat))
             one_batch ten_of_class0 (quiet_config 3 2) ∅ "clf" empty_world
           = Ok (self', logs', w')
           /\ stdout w' = [EarlyStopLine 1; BestAccLine 0%Q]
           /\ ~ In (EarlyStopLine 2) (stdout w')).
Proof.
  split; [|split]; (split; [vm_compute; reflexivity|]).
  - do 3 eexists. split; [vm_compute; reflexivity|].
    split; [reflexivity|]. simpl. intros [H|[H|[]]]; discriminate.
  - do 3 eexists. split; [vm_compute; reflexivity|].
    split; [reflexivity|]. split; [|vm_compute; reflexivity].
    simpl. intros [H|[H|[]]]; discriminate.
  - do 3 eexists. split; [vm_compute; reflexivity|].
    split; [reflexivity|]. simpl. intros [H|[H|[]]]; discriminate.
Qed.

(* ------------------------------------------------------------------ *)
(** ** The two scenarios *)

Section Scenarios.
Context {B : Backend}.
Variable config : Config.
Variable train_loader : list (tensor * tensor).
Variable test_data : tensor * tensor.

(** C3, amended.  When the first five epochs measure the validation
    accuracies 0.7, 0.6, 0.5, 0.5, 0.5, with a patience of 2 and at least
    5 epochs configured, [train_classifier] breaks at zero-based epoch 2,
    after its third epoch: it returns the classifier left by three epochs,
    prints the early stop at epoch 2, and records the first epoch's
    accuracy, 0.7, as the best. *)
Theorem early_stop_scenario (self self5 : Classifier) (ms : list Metrics)
    (logs : gmap string Q) (name : string) (w : World) :
  EARLY_STOP_PATIENCE config = 2%Z ->
  (5 <= NUM_EPOCHS config)%Z ->
  observe 5 self train_loader test_data = Ok (self5, ms) ->
  Forall2 Qeq (map test_accuracy ms) [0.7; 0.6; 0.5; 0.5; 0.5]%Q ->
  exists self3 logs' w' best,
    observe 3 self train_loader test_data = Ok (self3, firstn 3 ms)
    /\ train_classifier self train_loader test_data config logs name w
       = Ok (self3, logs', w')
    /\ stdout w' = stdout w ++ stopped_output config name 2 best
    /\ logs' !! (name +:+ "_best_acc") = Some best
    /\ (best == 0.7)%Q.
Proof.
  intros Hp Hn Hobs Hacc.
  destruct ms as [|m0 [|m1 [|m2 [|m3 [|m4 [|m5 ms]]]]]];
    try (repeat (apply Forall2_cons_1 in Hacc as [_ Hacc] || inversion Hacc); fail).
  apply Forall2_cons_1 in Hacc as [H0 Hacc].
  apply Forall2_cons_1 in Hacc as [H1 Hacc].
  apply Forall2_cons_1 in Hacc as [H2 _].
  destruct (observe_app train_loader test_data 3 2 _ _ _ Hobs) as (self3 & Hobs3 & _).
  simpl firstn in Hobs3.
  destruct (train_classifier_stops config train_loader test_data self self3
              [m0; m1; m2] (test_accuracy m0) (test_f1 m0) 2%Z logs name w)
    as (w' & Hrun & Hout).
  - exact Hobs3.
  - rewrite Hp.
    refine (eq_trans (early_stopping_improving 2 [] m0 [m1; m2] 0 0 0 0 _) _);
      [split; [rewrite H0; reflexivity | exact I]|].
    apply (early_stopping_stalling 2 [m1; m2] 1 _ _ 0%Z); [|discriminate|reflexivity].
    repeat constructor; [rewrite H0, H1 | rewrite H0, H2]; discriminate.
  - simpl. lia.
  - eexists self3, _, w', (test_accuracy m0).
    split; [exact Hobs3|]. split; [exact Hrun|]. split; [exact Hout|].
    split; [|exact H0].
    rewrite lookup_insert_ne by apply best_f1_key_ne_best_acc_key.
    apply lookup_insert_eq.
Qed.

(** C6.  With [NUM_EPOCHS = 4] and a patience of 3, when the four epochs
    measure the validation accuracies 0.8, 0.8, 0.8, 0.9,
    [train_classifier] runs all four epochs, prints no early stop, and
    records the last epoch's accuracy, 0.9, as the best. *)
Theorem four_epochs_scenario (self self4 : Classifier) (ms : list Metrics)
    (logs : gmap string Q) (name : string) (w : World) :
  NUM_EPOCHS config = 4%Z ->
  EARLY_STOP_PATIENCE config = 3%Z ->
  observe 4 self train_loader test_data = Ok (self4, ms) ->
  Forall2 Qeq (map test_accuracy ms) [0.8; 0.8; 0.8; 0.9]%Q ->
  exists logs' w' best,
    train_classifier self train_loader test_data config logs name w
    = Ok (self4, logs', w')
    /\ stdout w' = stdout w ++ completed_output config name best
    /\ logs' !! (name +:+ "_best_acc") = Some best
    /\ (best == 0.9)%Q.
Proof.
  intros Hn Hp Hobs Hacc.
  destruct ms as [|m0 [|m1 [|m2 [|m3 [|m4 ms]]]]];
    try (repeat (apply Forall2_cons_1 in Hacc as [_ Hacc] || inversion Hacc); fail).
  apply Forall2_cons_1 in Hacc as [H0 Hacc].
  apply Forall2_cons_1 in Hacc as [H1 Hacc].
  apply Forall2_cons_1 in Hacc as [H2 Hacc].
  apply Forall2_cons_1 in Hacc as [H3 _].
  destruct (train_classifier_completes config train_loader test_data self self4
              [m0; m1; m2; m3] (test_accuracy m3) (test_f1 m3) 0%Z logs name w)
    as (w' & Hrun & Hout).
  - exact Hobs.
  - rewrite Hp. simpl.
    replace (Qgtb (test_accuracy m0) 0) with true
      by (symmetry; apply Qgtb_true; rewrite H0; reflexivity).
    replace (Qgtb (test_accuracy m1) (test_accuracy m0)) with false
      by (symmetry; apply Qgtb_false; rewrite H0, H1; discriminate).
    replace (Qgtb (test_accuracy m2) (test_accuracy m0)) with false
      by (symmetry; apply Qgtb_false; rewrite H0, H2; discriminate).
    replace (Qgtb (test_accuracy m3) (test_accuracy m0)) with true
      by (symmetry; apply Qgtb_true; rewrite H0, H3; reflexivity).
    reflexivity.
  - rewrite Hn. reflexivity.
  - eexists _, w', (test_accuracy m3).
    split; [exact Hrun|]. split; [exact Hout|]. split; [|exact H3].
    rewrite lookup_insert_ne by apply best_f1_key_ne_best_acc_key.
    apply lookup_insert_eq.
Qed.

End Scenarios.

Lemma early_stop_scenario_witness :
  let cs := [7; 6; 5; 5; 5]%nat in
  let B := scripted square_loss (accuracy_script cs) in
  exists self3 logs' w' best,
    observe 3 (untrained square_loss (accuracy_script cs)) one_batch ten_of_class0
      = Ok (self3, firstn 3 (scripted_metrics cs 5))
    /\ train_classifier (untrained square_loss (accuracy_script cs)) one_batch
         ten_of_class0 (quiet_config 5 2) ∅ "clf" empty_world
       = Ok (self3, logs', w')
    /\ stdout w' = stdout (@empty_world B) ++ stopped_output (quiet_config 5 2) "clf" 2 best
    /\ logs' !! ("clf" +:+ "_best_acc") = Some best
    /\ (best == 0.7)%Q.
Proof.
  intros cs B.
  apply (early_stop_scenario (B := B) (quiet_config 5 2) one_batch ten_of_class0
           (untrained square_loss (accuracy_script cs)) (@Build_Classifier B 5%nat tt false)
           (scripted_metrics cs 5) ∅ "clf" empty_world).
  - reflexivity.
  - simpl. lia.
  - vm_compute. reflexivity.
  - vm_compute. repeat constructor.
Defined.

(** C3 as stated fails: on a run whose five epochs would measure the
    accuracies 0.7, 0.6, 0.5, 0.5, 0.5, with a patience of 2 and 5 epochs
    configured, the early stop is printed for zero-based epoch 2 and not
    for epoch 3, and the classifier returned has been trained for three
    epochs, not four. *)
Lemma early_stop_scenario_counterexample :
  let cs := [7; 6; 5; 5; 5]%nat in
  let B := scripted square_loss (accuracy_script cs) in
  map test_accuracy (scripted_metrics cs 5) = [0.7; 0.6; 0.5; 0.5; 0.5]%Q
  /\ exists logs' w',
       train_classifier (untrained square_loss (accuracy_script cs)) one_batch
         ten_of_class0 (quiet_config 5 2) ∅ "clf" empty_world
       = Ok (@Build_Classifier B 3%nat tt false, logs', w')
       /\ stdout w' = [EarlyStopLine 2; BestAccLine 0.7%Q]
       /\ ~ In (EarlyStopLine 3) (stdout w').
Proof.
  intros cs B. split; [vm_compute; reflexivity|].
  do 2 eexists. split; [vm_compute; reflexivity|].
  split; [reflexivity|]. simpl. intros [H|[H|[]]]; discriminate.
Qed.

Lemma four_epochs_scenario_witness :
  let cs := [8; 8; 8; 9]%nat in
  let B := scripted square_loss (accuracy_script cs) in
  exists logs' w' best,
    train_classifier (untrained square_loss (accuracy_script cs)) one_batch
      ten_of_class0 (quiet_config 4 3) ∅ "clf" empty_world
    = Ok (@Build_Classifier B 4%nat tt false, logs', w')
    /\ stdout w' = stdout (@empty_world B) ++ completed_output (quiet_config 4 3) "clf" best
    /\ logs' !! ("clf" +:+ "_best_acc") = Some best
    /\ (best == 0.9)%Q.
Proof.
  intros cs B.
  apply (four_epochs_scenario (B := B) (quiet_config 4 3) one_batch ten_of_class0
           (untrained square_loss (accuracy_script cs)) (@Build_Classifier B 4%nat tt false)
           (scripted_metrics cs 4) ∅ "clf" empty_world).
  - reflexivity.
  - reflexivity.
  - vm_compute. reflexivity.
  - vm_compute. repeat constructor.
Defined.

(* ------------------------------------------------------------------ *)
(** ** What a run records *)

Lemma observe_length {B : Backend} (train_loader : list (tensor * tensor))
    (test_data : tensor * tensor) (n : nat) :
  forall (self self' : Classifier) (ms : list Metrics),
  observe n self train_loader test_data = Ok (self', ms) -> length ms = n.
Proof.
  induction n as [|n IH]; intros self self' ms H; simpl in H.
  - injection H as <- <-. reflexivity.
  - destruct (run_epoch self train_loader test_data) as [[s1 m]|]; simpl in H;
      [|discriminate].
    destruct (observe n s1 train_loader test_data) as [[s2 ms']|] eqn:Hrest;
      simpl in H; [|discriminate].
    injection H as <- <-. simpl. f_equal. eapply IH. exact Hrest.
Qed.

Lemma running_best_snoc (ms : list Metrics) (m : Metrics) (b : Q * Q) :
  running_best (ms ++ [m]) b = keep_best (running_best ms b) m.
Proof. unfold running_best. rewrite fold_left_app. reflexivity. Qed.

(** The best accuracy never falls below the value it starts from. *)
Lemma running_best_above (ms : list Metrics) :
  forall (a f : Q), (a <= fst (running_best ms (a, f)))%Q.
Proof.
  induction ms as [|m ms IH]; intros a f.
  - simpl. apply Qle_refl.
  - unfold running_best. simpl. unfold keep_best at 2. simpl fst.
    destruct (Qgtb (test_accuracy m) a) eqn:E.
    + apply Qgtb_true in E. eapply Qle_trans; [apply Qlt_le_weak; exact E|].
      apply (IH (test_accuracy m) (test_f1 m)).
    + apply (IH a f).
Qed.

Section RunFacts.
Context {B : Backend}.
Variable config : Config.
Variable train_loader : list (tensor * tensor).
Variable test_data : tensor * tensor.

(** When [train_classifier] returns, the epochs it ran can be run again
    from the same classifier, they leave the classifier it returns, and
    the two entries it writes are their running best from [(0, 0)]. *)
Lemma train_classifier_inv (self self' : Classifier) (logs logs' : gmap string Q)
    (name : string) (w w' : World) :
  train_classifier self train_loader test_data config logs name w = Ok (self', logs', w') ->
  exists ms : list Metrics,
    observe (length ms) self train_loader test_data = Ok (self', ms)
    /\ (length ms <= Z.to_nat (NUM_EPOCHS config))%nat
    /\ logs' = <[name +:+ "_best_f1" := snd (running_best ms (0, 0)%Q)]>
                 (<[name +:+ "_best_acc" := fst (running_best ms (0, 0)%Q)]> logs).
Proof.
  intros H. rewrite train_classifier_loop in H.
  destruct (epoch_loop config train_loader test_data (range (NUM_EPOCHS config)) _)
    as [[st ex]|] eqn:Hloop; simpl in H; [|discriminate].
  injection H as <- <- <-.
  apply epoch_loop_inv in Hloop as (ms & Hobs & Hbest & Hlen). simpl in Hobs, Hbest.
  exists ms. split; [exact Hobs|]. split.
  - destruct ex; lia.
  - rewrite Hbest. reflexivity.
Qed.

(** C7.  When [train_classifier] returns, [logs] holds an entry under
    [name + "_best_acc"] and one under [name + "_best_f1"], and every
    other key is as it was before the call.  The keys of a run with
    another name are different from these two, so a later run with
    another name on the same [logs] leaves both entries as they are. *)
Theorem train_classifier_logs_frame (self self' : Classifier)
    (logs logs' : gmap string Q) (name : string) (w w' : World) :
  train_classifier self train_loader test_data config logs name w = Ok (self', logs', w') ->
  (exists a f,
     logs' !! (name +:+ "_best_acc") = Some a /\ logs' !! (name +:+ "_best_f1") = Some f)
  /\ (forall key : string,
        key <> name +:+ "_best_acc" -> key <> name +:+ "_best_f1" ->
        logs' !! key = logs !! key)
  /\ (forall name2 : string,
        name2 <> name ->
        (name2 +:+ "_best_acc" <> name +:+ "_best_acc"
         /\ name2 +:+ "_best_acc" <> name +:+ "_best_f1"
         /\ name2 +:+ "_best_f1" <> name +:+ "_best_acc"
         /\ name2 +:+ "_best_f1" <> name +:+ "_best_f1")
        /\ forall (config2 : Config) (train_loader2 : list (tensor * tensor))
                  (test_data2 : tensor * tensor) (self2 self2' : Classifier)
                  (logs2' : gmap string Q) (w2 w2' : World),
             train_classifier self2 train_loader2 test_data2 config2 logs' name2 w2
               = Ok (self2', logs2', w2') ->
             logs2' !! (name +:+ "_best_acc") = logs' !! (name +:+ "_best_acc")
             /\ logs2' !! (name +:+ "_best_f1") = logs' !! (name +:+ "_best_f1")).
Proof.
  intros H.
  assert (Hframe : forall (cfg : Config) (tl : list (tensor * tensor))
                          (td : tensor * tensor) (s s' : Classifier)
                          (l l' : gmap string Q) (n : string) (v v' : World),
             train_classifier s tl td cfg l n v = Ok (s', l', v') ->
             exists a f, l' = <[n +:+ "_best_f1" := f]> (<[n +:+ "_best_acc" := a]> l)).
  { intros cfg tl td s s' l l' n v v' Hrun.
    rewrite train_classifier_loop in Hrun.
    destruct (epoch_loop cfg tl td (range (NUM_EPOCHS cfg)) _) as [[st ex]|];
      simpl in Hrun; [|discriminate].
    injection Hrun as <- <- <-. eauto. }
  destruct (Hframe _ _ _ _ _ _ _ _ _ _ H) as (a & f & ->).
  assert (Hdistinct : forall name2 : string, name2 <> name ->
            name2 +:+ "_best_acc" <> name +:+ "_best_acc"
            /\ name2 +:+ "_best_acc" <> name +:+ "_best_f1"
            /\ name2 +:+ "_best_f1" <> name +:+ "_best_acc"
            /\ name2 +:+ "_best_f1" <> name +:+ "_best_f1").
  { intros name2 Hne. repeat split.
    - intros E. apply Hne. eapply append_inj_left. exact E.
    - apply best_acc_key_ne_best_f1_key.
    - apply best_f1_key_ne_best_acc_key.
    - intros E. apply Hne. eapply append_inj_left. exact E. }
  split; [|split].
  - exists a, f. split.
    + rewrite lookup_insert_ne by apply best_f1_key_ne_best_acc_key.
      apply lookup_insert_eq.
    + apply lookup_insert_eq.
  - intros key H1 H2. rewrite !lookup_insert_ne by congruence. reflexivity.
  - intros name2 Hne. destruct (Hdistinct name2 Hne) as (D1 & D2 & D3 & D4).
    split; [auto|].
    intros config2 train_loader2 test_data2 self2 self2' logs2' w2 w2' H2.
    destruct (Hframe _ _ _ _ _ _ _ _ _ _ H2) as (a2 & f2 & ->).
    split; rewrite !(lookup_insert_ne (<[name2 +:+ "_best_acc" := a2]> _))
      by assumption; rewrite lookup_insert_ne by assumption; reflexivity.
Qed.

End RunFacts.

Lemma train_classifier_logs_frame_witness :
  let cs := [7; 6; 5]%nat in
  let B := scripted square_loss (accuracy_script cs) in
  let name := "clf" in
  let logs : gmap string Q := {["other_best_acc" := 1%Q]} in
  let logs' : gmap string Q :=
    <["clf_best_f1" := (420 # 510)%Q]> (<["clf_best_acc" := 0.7%Q]> logs) in
  (exists a f,
     logs' !! (name +:+ "_best_acc") = Some a /\ logs' !! (name +:+ "_best_f1") = Some f)
  /\ (forall key : string,
        key <> name +:+ "_best_acc" -> key <> name +:+ "_best_f1" ->
        logs' !! key = logs !! key)
  /\ (forall name2 : string,
        name2 <> name ->
        (name2 +:+ "_best_acc" <> name +:+ "_best_acc"
         /\ name2 +:+ "_best_acc" <> name +:+ "_best_f1"
         /\ name2 +:+ "_best_f1" <> name +:+ "_best_acc"
         /\ name2 +:+ "_best_f1" <> name +:+ "_best_f1")
        /\ forall (config2 : Config) (train_loader2 : list (tensor * tensor))
                  (test_data2 : tensor * tensor) (self2 self2' : @Classifier B)
                  (logs2' : gmap string Q) (w2 w2' : @World B),
             train_classifier self2 train_loader2 test_data2 config2 logs' name2 w2
               = Ok (self2', logs2', w2') ->
             logs2' !! (name +:+ "_best_acc") = logs' !! (name +:+ "_best_acc")
             /\ logs2' !! (name +:+ "_best_f1") = logs' !! (name +:+ "_best_f1")).
Proof.
  intros cs B name logs logs'.
  apply (train_classifier_logs_frame (B := B) (quiet_config 5 2) one_batch ten_of_class0
           (untrained square_loss (accuracy_script cs)) (@Build_Classifier B 3%nat tt false)
           logs logs' name empty_world
           (@Build_World B [EarlyStopLine 2; BestAccLine 0.7%Q] [] ∅)).
  vm_compute. reflexivity.
Defined.

Section BestPair.
Context {B : Backend}.
Variable config : Config.
Variable train_loader : list (tensor * tensor).
Variable test_data : tensor * tensor.

(** C8.  In every iteration of the loop of [train_classifier]: when the
    epoch's test accuracy is strictly above the best so far, the best
    accuracy and the best F1 become this epoch's and the stall counter
    becomes 0; otherwise the best pair stays and the counter grows by one
    (and the loop breaks when it reaches the patience).  When the run
    returns, the pair it records is [(0, 0)], no epoch having had a
    positive accuracy, or the accuracy and the F1 of one epoch: one whose
    accuracy is above that of every epoch before it and not below that of
    any epoch after it.  The recorded F1 need not be the largest F1
    measured: in the scripted run on four examples it is the F1 of the
    first epoch, smaller than that of the second. *)
Theorem best_pair_tracking (self self' : Classifier) (logs logs' : gmap string Q)
    (name : string) (w w' : World) :
  (forall (epoch : nat) (epochs : list nat) (st : LoopState) (s : Classifier)
          (m : Metrics),
     run_epoch (ls_self st) train_loader test_data = Ok (s, m) ->
     ((best_acc st < test_accuracy m)%Q ->
      epoch_loop config train_loader test_data (epoch :: epochs) st
      = epoch_loop config train_loader test_data epochs
          {| ls_self := s; best_acc := test_accuracy m; best_f1 := test_f1 m;
             early_stop_counter := 0;
             ls_world := log_epochs config [m] (ls_world st) |})
     /\ ((test_accuracy m <= best_acc st)%Q ->
         epoch_loop config train_loader test_data (epoch :: epochs) st
         = if (EARLY_STOP_PATIENCE config <=? early_stop_counter st + 1)%Z then
             Ok ({| ls_self := s; best_acc := best_acc st; best_f1 := best_f1 st;
                    early_stop_counter := (early_stop_counter st + 1)%Z;
                    ls_world := print (EarlyStopLine epoch)
                                      (log_epochs config [m] (ls_world st)) |},
                 StoppedEarly epoch)
           else
             epoch_loop config train_loader test_data epochs
               {| ls_self := s; best_acc := best_acc st; best_f1 := best_f1 st;
                  early_stop_counter := (early_stop_counter st + 1)%Z;
                  ls_world := log_epochs config [m] (ls_world st) |}))
  /\ (train_classifier self train_loader test_data config logs name w
        = Ok (self', logs', w') ->
      exists ms : list Metrics,
        observe (length ms) self train_loader test_data = Ok (self', ms)
        /\ ((logs' !! (name +:+ "_best_acc") = Some 0%Q
             /\ logs' !! (name +:+ "_best_f1") = Some 0%Q
             /\ Forall (fun m => (test_accuracy m <= 0)%Q) ms)
            \/ (exists before m after,
                  ms = before ++ m :: after
                  /\ logs' !! (name +:+ "_best_acc") = Some (test_accuracy m)
                  /\ logs' !! (name +:+ "_best_f1") = Some (test_f1 m)
                  /\ Forall (fun m' => (test_accuracy m' < test_accuracy m)%Q) before
                  /\ Forall (fun m' => (test_accuracy m' <= test_accuracy m)%Q) after)))
  /\ (exists (m1 m2 : Metrics) (s2 run_self : @Classifier (scripted square_loss f1_script))
             (run_logs : gmap string Q) (run_world : @World (scripted square_loss f1_script)),
        observe 2 (untrained square_loss f1_script) one_batch three_and_one
          = Ok (s2, [m1; m2])
        /\ train_classifier (untrained square_loss f1_script) one_batch three_and_one
             (quiet_config 2 5) ∅ "clf" empty_world
           = Ok (run_self, run_logs, run_world)
        /\ run_logs !! "clf_best_f1" = Some (test_f1 m1)
        /\ (test_f1 m1 < test_f1 m2)%Q).
Proof.
  split; [|split].
  - intros epoch epochs st s m Hrun.
    rewrite (epoch_loop_cons config train_loader test_data _ _ _ _ _ Hrun).
    split; intros Hacc.
    + apply Qgtb_true in Hacc. rewrite Hacc. reflexivity.
    + apply Qgtb_false in Hacc. rewrite Hacc. reflexivity.
  - intros Hrun.
    apply train_classifier_inv in Hrun as (ms & Hobs & _ & ->).
    exists ms. split; [exact Hobs|].
    destruct (running_best ms (0, 0)%Q) as [a f] eqn:Hbest. simpl fst. simpl snd.
    assert (Hacc : forall x y : Q,
               (<[name +:+ "_best_f1" := y]> (<[name +:+ "_best_acc" := x]> logs))
                 !! (name +:+ "_best_acc") = Some x).
    { intros x y. rewrite lookup_insert_ne by apply best_f1_key_ne_best_acc_key.
      apply lookup_insert_eq. }
    destruct (running_best_split ms _ _ _ _ Hbest)
      as [(-> & -> & Hall) | (before & m & after & -> & -> & -> & _ & Hb & Ha)].
    + left. split; [apply Hacc|]. split; [apply lookup_insert_eq | exact Hall].
    + right. exists before, m, after.
      split; [reflexivity|]. split; [apply Hacc|].
      split; [apply lookup_insert_eq|]. split; assumption.
  - do 6 eexists. split; [vm_compute; reflexivity|].
    split; [vm_compute; reflexivity|].
    split; vm_compute; reflexivity.
Qed.

(** C10, amended.  An epoch whose test accuracy is 0 is never an
    improvement: when a run returns, the accuracy it records is the
    running best of its epochs from 0, and an epoch of accuracy 0 leaves
    the running best as the epochs before it left it.  If the first
    [EARLY_STOP_PATIENCE] epochs all measure the accuracy 0 and
    [1 <= EARLY_STOP_PATIENCE <= NUM_EPOCHS], the run returns the
    classifier left by exactly these epochs, prints the early stop at the
    last of them, and records 0 and 0.  With [NUM_EPOCHS = 0] the run
    returns the classifier it was given and records 0 and 0. *)
Theorem zero_accuracy_runs (self self' : Classifier) (logs logs' : gmap string Q)
    (name : string) (w w' : World) :
  (train_classifier self train_loader test_data config logs name w
     = Ok (self', logs', w') ->
   exists ms : list Metrics,
     observe (length ms) self train_loader test_data = Ok (self', ms)
     /\ logs' !! (name +:+ "_best_acc") = Some (fst (running_best ms (0, 0)%Q))
     /\ logs' !! (name +:+ "_best_f1") = Some (snd (running_best ms (0, 0)%Q))
     /\ forall before m after,
          ms = before ++ m :: after -> (test_accuracy m == 0)%Q ->
          running_best (before ++ [m]) (0, 0)%Q = running_best before (0, 0)%Q)
  /\ (forall (ms : list Metrics) (self0 : Classifier),
        (1 <= EARLY_STOP_PATIENCE config)%Z ->
        (EARLY_STOP_PATIENCE config <= NUM_EPOCHS config)%Z ->
        observe (Z.to_nat (EARLY_STOP_PATIENCE config)) self train_loader test_data
          = Ok (self0, ms) ->
        Forall (fun m => (test_accuracy m == 0)%Q) ms ->
        exists w0,
          train_classifier self train_loader test_data config logs name w
          = Ok (self0,
                <[name +:+ "_best_f1" := 0%Q]> (<[name +:+ "_best_acc" := 0%Q]> logs), w0)
          /\ stdout w0
             = stdout w
               ++ stopped_output config name (Z.to_nat (EARLY_STOP_PATIENCE config) - 1) 0)
  /\ (NUM_EPOCHS config = 0%Z ->
      train_classifier self train_loader test_data config logs name w
      = Ok (self,
            <[name +:+ "_best_f1" := 0%Q]> (<[name +:+ "_best_acc" := 0%Q]> logs),
            finished config name (net self) 0 (started config name w))).
Proof.
  split; [|split].
  - intros Hrun.
    apply train_classifier_inv in Hrun as (ms & Hobs & _ & ->).
    exists ms. split; [exact Hobs|]. split; [|split].
    + rewrite lookup_insert_ne by apply best_f1_key_ne_best_acc_key.
      apply lookup_insert_eq.
    + apply lookup_insert_eq.
    + intros before m after _ Hzero. rewrite running_best_snoc.
      unfold keep_best.
      replace (Qgtb (test_accuracy m) (fst (running_best before (0, 0)%Q))) with false;
        [reflexivity|].
      symmetry. apply Qgtb_false. rewrite Hzero. apply (running_best_above before 0 0).
  - intros ms self0 Hp Hn Hobs Hzero.
    pose proof (observe_length _ _ _ _ _ _ Hobs) as Hlen.
    destruct (train_classifier_stops config train_loader test_data self self0 ms
                0 0 (EARLY_STOP_PATIENCE config) logs name w) as (w0 & Hrun & Hout).
    + rewrite Hlen. exact Hobs.
    + apply (early_stopping_stalling _ ms 0 0 0 0%Z).
      * eapply Forall_impl; [exact Hzero|]. intros m Hm. simpl in Hm.
        rewrite Hm. apply Qle_refl.
      * intros ->. simpl in Hlen. lia.
      * lia.
    + lia.
    + exists w0. split; [exact Hrun|]. rewrite Hout, Hlen. reflexivity.
  - intros Hn. rewrite train_classifier_loop. rewrite Hn. reflexivity.
Qed.

End BestPair.

Lemma best_pair_tracking_witness :
  let cs := [6; 7; 5; 5]%nat in
  let B := scripted square_loss (accuracy_script cs) in
  let self := untrained square_loss (accuracy_script cs) in
  let st := {| ls_self := self; best_acc := 0; best_f1 := 0; early_stop_counter := 0;
               ls_world := empty_world |} in
  let m := nth 0 (scripted_metrics cs 1) (Build_Metrics NaN 0 0 0) in
  epoch_loop (quiet_config 5 2) one_batch ten_of_class0 [0%nat] st
  = epoch_loop (quiet_config 5 2) one_batch ten_of_class0 []
      {| ls_self := @Build_Classifier B 1%nat tt false;
         best_acc := test_accuracy m; best_f1 := test_f1 m; early_stop_counter := 0;
         ls_world := log_epochs (quiet_config 5 2) [m] (ls_world st) |}
  /\ exists ms : list Metrics,
       observe (length ms) self one_batch ten_of_class0
         = Ok (@Build_Classifier B 4%nat tt false, ms)
       /\ ((({["clf_best_f1" := (420 # 510)%Q; "clf_best_acc" := 0.7%Q]} : gmap string Q)
              !! ("clf" +:+ "_best_acc") = Some 0%Q
            /\ ({["clf_best_f1" := (420 # 510)%Q; "clf_best_acc" := 0.7%Q]} : gmap string Q)
                 !! ("clf" +:+ "_best_f1") = Some 0%Q
            /\ Forall (fun m => (test_accuracy m <= 0)%Q) ms)
           \/ (exists before m after,
                 ms = before ++ m :: after
                 /\ ({["clf_best_f1" := (420 # 510)%Q; "clf_best_acc" := 0.7%Q]}
                       : gmap string Q) !! ("clf" +:+ "_best_acc") = Some (test_accuracy m)
                 /\ ({["clf_best_f1" := (420 # 510)%Q; "clf_best_acc" := 0.7%Q]}
                       : gmap string Q) !! ("clf" +:+ "_best_f1") = Some (test_f1 m)
                 /\ Forall (fun m' => (test_accuracy m' < test_accuracy m)%Q) before
                 /\ Forall (fun m' => (test_accuracy m' <= test_accuracy m)%Q) after)).
Proof.
  intros cs B self st m.
  pose proof (best_pair_tracking (B := B) (quiet_config 5 2) one_batch ten_of_class0
                self (@Build_Classifier B 4%nat tt false) ∅
                {["clf_best_f1" := (420 # 510)%Q; "clf_best_acc" := 0.7%Q]}
                "clf" empty_world
                (@Build_World B [EarlyStopLine 3; BestAccLine 0.7%Q] [] ∅))
    as (Hstep & Hrun & _).
  split.
  - refine (proj1 (Hstep 0%nat [] st (@Build_Classifier B 1%nat tt false) m _) _);
      vm_compute; reflexivity.
  - apply Hrun. vm_compute. reflexivity.
Defined.

Lemma zero_accuracy_runs_witness :
  let cs := [0; 0; 0]%nat in
  let B := scripted square_loss (accuracy_script cs) in
  let self := untrained square_loss (accuracy_script cs) in
  (exists w0,
     train_classifier self one_batch ten_of_class0 (quiet_config 3 2) ∅ "clf" empty_world
     = Ok (@Build_Classifier B 2%nat tt false,
           <["clf" +:+ "_best_f1" := 0%Q]> (<["clf" +:+ "_best_acc" := 0%Q]> ∅), w0)
     /\ stdout w0
        = stdout (@empty_world B) ++ stopped_output (quiet_config 3 2) "clf" (Z.to_nat 2 - 1) 0)
  /\ train_classifier self one_batch ten_of_class0 (quiet_config 0 2) ∅ "clf" empty_world
     = Ok (self,
           <["clf" +:+ "_best_f1" := 0%Q]> (<["clf" +:+ "_best_acc" := 0%Q]> ∅),
           finished (quiet_config 0 2) "clf" (net self) 0
             (started (quiet_config 0 2) "clf" empty_world)).
Proof.
  intros cs B self. split.
  - apply (proj1 (proj2 (zero_accuracy_runs (B := B) (quiet_config 3 2) one_batch
                           ten_of_class0 self self ∅ ∅ "clf" empty_world empty_world))
             (scripted_metrics cs 2) (@Build_Classifier B 2%nat tt false)).
    + simpl. lia.
    + simpl. lia.
    + vm_compute. reflexivity.
    + vm_compute. repeat constructor.
  - apply (proj2 (proj2 (zero_accuracy_runs (B := B) (quiet_config 0 2) one_batch
                           ten_of_class0 self self ∅ ∅ "clf" empty_world empty_world))).
    reflexivity.
Defined.

(** C10 as stated fails for a patience of 0: with [NUM_EPOCHS = 1 >= 0]
    and an accuracy of 0 the loop runs one epoch and breaks at epoch 0; it
    does not stop after [EARLY_STOP_PATIENCE = 0] epochs. *)
Lemma zero_accuracy_runs_counterexample :
  let cs := [0; 0; 0]%nat in
  let B := scripted square_loss (accuracy_script cs) in
  let self := untrained square_loss (accuracy_script cs) in
  (EARLY_STOP_PATIENCE (quiet_config 1 0) <= NUM_EPOCHS (quiet_config 1 0))%Z
  /\ map test_accuracy (scripted_metrics cs 1) = [(0 # 10)%Q]
  /\ exists self' logs' w',
       train_classifier self one_batch ten_of_class0 (quiet_config 1 0) ∅ "clf" empty_world
       = Ok (self', logs', w')
       /\ stdout w' = [EarlyStopLine 0; BestAccLine 0%Q]
       /\ observe 1 self one_batch ten_of_class0 = Ok (self', scripted_metrics cs 1)
       /\ observe (Z.to_nat (EARLY_STOP_PATIENCE (quiet_config 1 0))) self one_batch
            ten_of_class0 <> Ok (self', []).
Proof.
  intros cs B self. split; [simpl; lia|]. split; [vm_compute; reflexivity|].
  do 3 eexists. split; [vm_compute; reflexivity|].
  split; [reflexivity|]. split; [vm_compute; reflexivity|].
  vm_compute. discriminate.
Qed.

(* ================================================================== *)
(** * Further properties of the training loop *)

(* ------------------------------------------------------------------ *)
(** ** Every returning run is the replay of its epochs *)

Section Replay.
Context {B : Backend}.
Variable config : Config.
Variable train_loader : list (tensor * tensor).
Variable test_data : tensor * tensor.

(** When the loop over [k] epochs returns, the replay of the metrics of
    the epochs it ran gives its best pair, its counter and its exit, and
    its world is the one of these epochs' records, with the early-stop
    line when it broke. *)
Lemma epoch_loop_replay (k : nat) :
  forall (e0 : nat) (st st' : LoopState) (ex : loop_exit),
  epoch_loop config train_loader test_data (seq e0 k) st = Ok (st', ex) ->
  exists ms : list Metrics,
    observe (length ms) (ls_self st) train_loader test_data = Ok (ls_self st', ms)
    /\ early_stopping (EARLY_STOP_PATIENCE config) e0 ms
         (best_acc st) (best_f1 st) (early_stop_counter st)
       = (best_acc st', best_f1 st', early_stop_counter st', ex)
    /\ match ex with
       | Completed =>
           length ms = k /\ ls_world st' = log_epochs config ms (ls_world st)
       | StoppedEarly e =>
           e = (e0 + length ms - 1)%nat /\ (1 <= length ms <= k)%nat
           /\ ls_world st' = print (EarlyStopLine e) (log_epochs config ms (ls_world st))
       end.
Proof.
  induction k as [|k IH]; intros e0 st st' ex H.
  - simpl in H. injection H as <- <-. exists []. simpl.
    rewrite log_epochs_nil. auto.
  - simpl seq in H.
    destruct (run_epoch (ls_self st) train_loader test_data) as [[s1 m]|e] eqn:Hrun.
    2: { rewrite (epoch_loop_raise _ _ _ _ _ _ _ Hrun) in H. discriminate. }
    rewrite (epoch_loop_cons _ _ _ _ _ _ _ _ Hrun) in H.
    destruct (Qgtb (test_accuracy m) (best_acc st)) eqn:E.
    + apply IH in H as (ms & Hobs & Hes & Hex). simpl in Hobs, Hes, Hex.
      exists (m :: ms). simpl observe. rewrite Hrun. simpl. rewrite Hobs. simpl.
      split; [reflexivity|]. rewrite E. split; [exact Hes|].
      rewrite log_epochs_cons.
      destruct ex; [destruct Hex as [-> ->]; auto|].
      destruct Hex as (-> & Hlen & ->). repeat split; try lia.
    + destruct (EARLY_STOP_PATIENCE config <=? early_stop_counter st + 1)%Z eqn:Ep.
      * injection H as <- <-. exists [m]. simpl observe. rewrite Hrun. simpl.
        split; [reflexivity|]. rewrite E, Ep. split; [reflexivity|].
        repeat split; try lia.
      * apply IH in H as (ms & Hobs & Hes & Hex). simpl in Hobs, Hes, Hex.
        exists (m :: ms). simpl observe. rewrite Hrun. simpl. rewrite Hobs. simpl.
        split; [reflexivity|]. rewrite E, Ep. split; [exact Hes|].
        rewrite log_epochs_cons.
        destruct ex; [destruct Hex as [-> ->]; auto|].
        destruct Hex as (-> & Hlen & ->). repeat split; try lia.
Qed.

(** When [train_classifier] returns, it is the run that
    [train_classifier_observed] describes: for the metrics [ms] of the
    epochs it ran, it either used up the configured epochs or broke at
    the last of at least one epoch. *)
Lemma train_classifier_replay (self self' : Classifier) (logs logs' : gmap string Q)
    (name : string) (w w' : World) :
  train_classifier self train_loader test_data config logs name w = Ok (self', logs', w') ->
  exists (ms : list Metrics) (a f : Q) (c : Z) (ex : loop_exit),
    observe (length ms) self train_loader test_data = Ok (self', ms)
    /\ early_stopping (EARLY_STOP_PATIENCE config) 0 ms 0 0 0 = (a, f, c, ex)
    /\ ((ex = Completed /\ length ms = Z.to_nat (NUM_EPOCHS config))
        \/ (ex = StoppedEarly (length ms - 1)
            /\ (1 <= length ms <= Z.to_nat (NUM_EPOCHS config))%nat))
    /\ logs' = <[name +:+ "_best_f1" := f]> (<[name +:+ "_best_acc" := a]> logs)
    /\ w' = finished config name (net self') a
              (match ex with
               | Completed => log_epochs config ms (started config name w)
               | StoppedEarly e =>
                   print (EarlyStopLine e) (log_epochs config ms (started config name w))
               end).
Proof.
  intros H. rewrite train_classifier_loop in H.
  destruct (epoch_loop config train_loader test_data (range (NUM_EPOCHS config)) _)
    as [[st ex]|] eqn:Hloop; simpl in H; [|discriminate].
  injection H as <- <- <-.
  apply epoch_loop_replay in Hloop as (ms & Hobs & Hes & Hex).
  simpl in Hobs, Hes, Hex.
  exists ms, (best_acc st), (best_f1 st), (early_stop_counter st), ex.
  split; [exact Hobs|]. split; [exact Hes|].
  destruct ex.
  - destruct Hex as [Hlen ->]. split; [left; auto|]. split; reflexivity.
  - destruct Hex as (-> & Hlen & ->). simpl.
    split; [right; split; [reflexivity | lia]|]. split; reflexivity.
Qed.

End Replay.

(* ------------------------------------------------------------------ *)
(** ** What a returning run prints, sends and saves *)

Section Effects.
Context {B : Backend}.
Variable config : Config.
Variable train_loader : list (tensor * tensor).
Variable test_data : tensor * tensor.

(** X1.  A run of [train_classifier] that returns never runs more than
    [NUM_EPOCHS] epochs, and what it prints is one of two things: the best
    accuracy it recorded (and the saved path when saving is on) after all
    [NUM_EPOCHS] epochs, with no early-stop line; or one early-stop line,
    for the last epoch it ran, followed by the same. *)
Theorem train_classifier_prints (self self' : Classifier) (logs logs' : gmap string Q)
    (name : string) (w w' : World) :
  train_classifier self train_loader test_data config logs name w = Ok (self', logs', w') ->
  exists (ms : list Metrics) (best : Q),
    observe (length ms) self train_loader test_data = Ok (self', ms)
    /\ (length ms <= Z.to_nat (NUM_EPOCHS config))%nat
    /\ logs' !! (name +:+ "_best_acc") = Some best
    /\ ((length ms = Z.to_nat (NUM_EPOCHS config)
         /\ stdout w' = stdout w ++ completed_output config name best)
        \/ ((1 <= length ms)%nat
            /\ stdout w' = stdout w ++ stopped_output config name (length ms - 1) best)).
Proof.
  intros H.
  apply train_classifier_replay in H as (ms & a & f & c & ex & Hobs & _ & Hex & -> & ->).
  exists ms, a. split; [exact Hobs|].
  assert (Hbest : (<[name +:+ "_best_f1" := f]> (<[name +:+ "_best_acc" := a]> logs))
                    !! (name +:+ "_best_acc") = Some a).
  { rewrite lookup_insert_ne by apply best_f1_key_ne_best_acc_key.
    apply lookup_insert_eq. }
  rewrite stdout_finished.
  destruct Hex as [[-> Hlen]|[-> Hlen]].
  - split; [lia|]. split; [exact Hbest|]. left. split; [exact Hlen|].
    rewrite stdout_log_epochs, stdout_started. reflexivity.
  - split; [lia|]. split; [exact Hbest|]. right. split; [lia|].
    simpl stdout. rewrite stdout_log_epochs, stdout_started.
    rewrite <- app_assoc. reflexivity.
Qed.

(** X2.  With the sink disabled a returning run sends nothing to it.  With
    the sink enabled it sends, in this order, one [init] with the project,
    the tags [train], the dataset and the run name, and the display name
    made of the dataset and the run name, one [watch], one [log] record
    per epoch it ran, carrying the metrics of that epoch, and one
    [finish]. *)
Theorem train_classifier_sink (self self' : Classifier) (logs logs' : gmap string Q)
    (name : string) (w w' : World) :
  train_classifier self train_loader test_data config logs name w = Ok (self', logs', w') ->
  exists ms : list Metrics,
    observe (length ms) self train_loader test_data = Ok (self', ms)
    /\ wandb w'
       = if WANDB config
         then wandb w
              ++ [WandbInit (WANDB_PROJECT config) config ["train"; DATASET config; name]
                            (DATASET config +:+ " " +:+ name);
                  WandbWatch]
              ++ map WandbLog ms ++ [WandbFinish]
         else wandb w.
Proof.
  intros H.
  apply train_classifier_replay in H as (ms & a & f & c & ex & Hobs & _ & _ & -> & ->).
  exists ms. split; [exact Hobs|].
  unfold finished, log_epochs, started.
  destruct (WANDB config), (SAVE_CLASSIFIER config), ex; simpl;
    rewrite <- ?app_assoc; reflexivity.
Qed.

(** X3.  With saving enabled a returning run writes one file, at the path
    that [get_model_path] gives for the configuration and the run name,
    and the file holds the parameters of the classifier the run returns,
    those left by the last epoch it ran, whichever epoch had the best
    accuracy; every other file is as before.  With saving disabled no
    file is written. *)
Theorem train_classifier_saves (self self' : Classifier) (logs logs' : gmap string Q)
    (name : string) (w w' : World) :
  train_classifier self train_loader test_data config logs name w = Ok (self', logs', w') ->
  (SAVE_CLASSIFIER config = true ->
   files w' !! get_model_path config name = Some (net self')
   /\ forall path : string,
        path <> get_model_path config name -> files w' !! path = files w !! path)
  /\ (SAVE_CLASSIFIER config = false -> files w' = files w).
Proof.
  intros H.
  apply train_classifier_replay in H as (ms & a & f & c & ex & _ & _ & _ & -> & ->).
  assert (Hfiles : forall v : World,
             files (match ex with
                    | Completed => log_epochs config ms (started config name v)
                    | StoppedEarly e =>
                        print (EarlyStopLine e) (log_epochs config ms (started config name v))
                    end) = files v).
  { intros v. unfold log_epochs, started. destruct ex, (WANDB config); reflexivity. }
  unfold finished. split; intros Hsave; rewrite Hsave.
  - simpl files. destruct (WANDB config); simpl files; rewrite Hfiles.
    + split; [apply lookup_insert_eq|]. intros path Hne.
      apply lookup_insert_ne. congruence.
    + split; [apply lookup_insert_eq|]. intros path Hne.
      apply lookup_insert_ne. congruence.
  - destruct (WANDB config); simpl files; apply Hfiles.
Qed.

End Effects.

Lemma train_classifier_prints_witness :
  let cs := [7; 6; 5; 5; 5]%nat in
  let B := scripted square_loss (accuracy_script cs) in
  exists (self' : @Classifier B) (logs' : gmap string Q) (w' : @World B),
    train_classifier (untrained square_loss (accuracy_script cs)) one_batch ten_of_class0
      (loud_config 5 2) ∅ "clf" empty_world = Ok (self', logs', w')
    /\ exists (ms : list Metrics) (best : Q),
         observe (length ms) (untrained square_loss (accuracy_script cs)) one_batch
           ten_of_class0 = Ok (self', ms)
         /\ (length ms <= Z.to_nat (NUM_EPOCHS (loud_config 5 2)))%nat
         /\ logs' !! ("clf" +:+ "_best_acc") = Some best
         /\ ((length ms = Z.to_nat (NUM_EPOCHS (loud_config 5 2))
              /\ stdout w' = stdout (@empty_world B)
                             ++ completed_output (loud_config 5 2) "clf" best)
             \/ ((1 <= length ms)%nat
                 /\ stdout w' = stdout (@empty_world B)
                                ++ stopped_output (loud_config 5 2) "clf" (length ms - 1) best)).
Proof.
  intros cs B. do 3 eexists. split; [vm_compute; reflexivity|].
  apply (train_classifier_prints (B := B) (loud_config 5 2) one_batch ten_of_class0
           (untrained square_loss (accuracy_script cs)) _ ∅ _ "clf" empty_world _).
  vm_compute. reflexivity.
Defined.

Lemma train_classifier_sink_witness :
  let cs := [7; 6; 5; 5; 5]%nat in
  let B := scripted square_loss (accuracy_script cs) in
  exists (self' : @Classifier B) (logs' : gmap string Q) (w' : @World B),
    train_classifier (untrained square_loss (accuracy_script cs)) one_batch ten_of_class0
      (loud_config 5 2) ∅ "clf" empty_world = Ok (self', logs', w')
    /\ exists ms : list Metrics,
         observe (length ms) (untrained square_loss (accuracy_script cs)) one_batch
           ten_of_class0 = Ok (self', ms)
         /\ wandb w'
            = if WANDB (loud_config 5 2)
              then wandb (@empty_world B)
                   ++ [WandbInit (WANDB_PROJECT (loud_config 5 2)) (loud_config 5 2)
                                 ["train"; DATASET (loud_config 5 2); "clf"]
                                 (DATASET (loud_config 5 2) +:+ " " +:+ "clf");
                       WandbWatch]
                   ++ map WandbLog ms ++ [WandbFinish]
              else wandb (@empty_world B).
Proof.
  intros cs B. do 3 eexists.
  match goal with
  | |- ?run /\ _ => assert (Hrun : run) by (vm_compute; reflexivity)
  end.
  split; [exact Hrun|].
  exact (train_classifier_sink (B := B) _ _ _ _ _ _ _ _ _ _ Hrun).
Defined.

Lemma train_classifier_saves_witness :
  let cs := [7; 6; 5; 5; 5]%nat in
  let B := scripted square_loss (accuracy_script cs) in
  exists (self' : @Classifier B) (logs' : gmap string Q) (w' : @World B),
    train_classifier (untrained square_loss (accuracy_script cs)) one_batch ten_of_class0
      (loud_config 5 2) ∅ "clf" empty_world = Ok (self', logs', w')
    /\ files w' !! get_model_path (loud_config 5 2) "clf" = Some (net self')
    /\ forall path : string,
         path <> get_model_path (loud_config 5 2) "clf" ->
         files w' !! path = files (@empty_world B) !! path.
Proof.
  intros cs B. do 3 eexists.
  match goal with
  | |- ?run /\ _ => assert (Hrun : run) by (vm_compute; reflexivity)
  end.
  split; [exact Hrun|].
  apply (proj1 (train_classifier_saves (B := B) _ _ _ _ _ _ _ _ _ _ Hrun)).
  reflexivity.
Defined.

(* ------------------------------------------------------------------ *)
(** ** Exceptions, modes and the shape of a run *)

(** When the replay stops at the last of the epochs [ms], having started
    with a counter below a patience of at least one, the counter has
    reached the patience exactly, and [ms] ends with a stretch of epochs
    that do not beat the final best: as many as the patience, or, when
    no epoch improved at all, as many as the patience still allowed. *)
Lemma early_stopping_stop_tail (patience : Z) (ms : list Metrics) :
  forall (epoch : nat) (a f : Q) (c : Z) (a' f' : Q) (c' : Z),
  (0 <= c < patience)%Z ->
  early_stopping patience epoch ms a f c
    = (a', f', c', StoppedEarly (epoch + length ms - 1)) ->
  c' = patience
  /\ exists front stalls : list Metrics,
       ms = front ++ stalls
       /\ Forall (fun m => (test_accuracy m <= a')%Q) stalls
       /\ (Z.of_nat (length stalls) = patience
           \/ (front = [] /\ a' = a /\ Z.of_nat (length stalls) = (patience - c)%Z)).
Proof.
  induction ms as [|m ms IH]; intros epoch a f c a' f' c' Hc H.
  - simpl in H. discriminate.
  - simpl in H. destruct (Qgtb (test_accuracy m) a) eqn:E.
    + replace (epoch + S (length ms) - 1)%nat with (S epoch + length ms - 1)%nat in H
        by lia.
      destruct (IH (S epoch) (test_accuracy m) (test_f1 m) 0%Z a' f' c' ltac:(lia) H)
        as (-> & front & stalls & -> & Hall & Hlen).
      split; [reflexivity|]. destruct Hlen as [Hlen | (-> & -> & Hlen)].
      * exists (m :: front), stalls. auto.
      * exists [m], stalls. split; [reflexivity|]. split; [exact Hall|]. left. lia.
    + apply Qgtb_false in E.
      destruct (patience <=? c + 1)%Z eqn:Ep.
      * apply Z.leb_le in Ep. injection H as <- <- <- Hlast.
        split; [lia|]. exists [], [m]. split; [|split].
        -- destruct ms; [reflexivity | simpl in Hlast; lia].
        -- constructor; [exact E | constructor].
        -- right. simpl. repeat split. lia.
      * apply Z.leb_gt in Ep.
        replace (epoch + S (length ms) - 1)%nat with (S epoch + length ms - 1)%nat in H
          by lia.
        destruct (IH (S epoch) a f (c + 1)%Z a' f' c' ltac:(lia) H)
          as (-> & front & stalls & -> & Hall & Hlen).
        split; [reflexivity|]. destruct Hlen as [Hlen | (-> & -> & Hlen)].
        -- exists (m :: front), stalls. auto.
        -- exists [], (m :: stalls). split; [reflexivity|]. split.
           ++ constructor; assumption.
           ++ right. repeat split. simpl length. lia.
Qed.

Section RunShape.
Context {B : Backend}.
Variable config : Config.
Variable train_loader : list (tensor * tensor).
Variable test_data : tensor * tensor.

Lemma run_epoch_mode (self s : Classifier) (m : Metrics) :
  run_epoch self train_loader test_data = Ok (s, m) -> training s = false.
Proof.
  unfold run_epoch. intros H.
  destruct (train_epoch self train_loader) as [[s1 [l a]]|]; simpl in H; [|discriminate].
  destruct (validate s1 test_data) as [[s2 [ta tf]]|] eqn:Hv; simpl in H; [|discriminate].
  injection H as <- _. apply validate_classifier in Hv. subst s2. reflexivity.
Qed.

Lemma observe_mode (n : nat) :
  forall (self s : Classifier) (ms : list Metrics),
  observe n self train_loader test_data = Ok (s, ms) -> (1 <= n)%nat ->
  training s = false.
Proof.
  induction n as [|n IH]; intros self s ms H Hn; [lia|].
  simpl in H.
  destruct (run_epoch self train_loader test_data) as [[s1 m]|] eqn:Hrun;
    simpl in H; [|discriminate].
  destruct (observe n s1 train_loader test_data) as [[s2 ms']|] eqn:Hrest;
    simpl in H; [|discriminate].
  injection H as <- _.
  destruct n as [|n].
  - simpl in Hrest. injection Hrest as <- _. eapply run_epoch_mode. exact Hrun.
  - eapply IH; [exact Hrest | lia].
Qed.

(** X4.  With at least one epoch configured, a returning run leaves the
    classifier in evaluation mode ([validate] is the last thing every
    epoch does), whatever mode it was given in; with no epoch configured
    it returns the classifier exactly as it was given. *)
Theorem train_classifier_mode (self self' : Classifier) (logs logs' : gmap string Q)
    (name : string) (w w' : World) :
  train_classifier self train_loader test_data config logs name w = Ok (self', logs', w') ->
  ((1 <= NUM_EPOCHS config)%Z -> training self' = false)
  /\ ((NUM_EPOCHS config <= 0)%Z -> self' = self).
Proof.
  intros H.
  apply train_classifier_replay in H as (ms & a & f & c & ex & Hobs & _ & Hex & _ & _).
  split; intros Hn.
  - eapply observe_mode; [exact Hobs|]. destruct Hex as [[_ Hlen]|[_ Hlen]]; lia.
  - assert (length ms = 0%nat) as Hlen by (destruct Hex as [[_ Hlen]|[_ Hlen]]; lia).
    rewrite Hlen in Hobs. simpl in Hobs. congruence.
Qed.

(** X5.  With an empty training loader and at least one epoch configured,
    [train_classifier] raises [ZeroDivisionError] in its first epoch: it
    returns nothing, so the two entries are not written. *)
Theorem train_classifier_empty_loader (self : Classifier) (logs : gmap string Q)
    (name : string) (w : World) :
  (1 <= NUM_EPOCHS config)%Z ->
  train_classifier self [] test_data config logs name w = Raise ZeroDivisionError.
Proof.
  intros Hn. rewrite train_classifier_loop. unfold range.
  destruct (Z.to_nat (NUM_EPOCHS config)) as [|k] eqn:Hk; [lia|].
  simpl seq. rewrite (epoch_loop_raise _ _ _ _ _ _ ZeroDivisionError); reflexivity.
Qed.

Lemma validate_no_targets (self : Classifier) (x : tensor) (r : Classifier * (Q * Q)) :
  validate self (x, []) <> Ok r.
Proof.
  unfold validate, call, to_default_device. simpl training. simpl net.
  destruct (forward_eval (net self) (unsqueeze1 x)) as [out|]; simpl; [|discriminate].
  destruct (argmax out) as [pred|]; simpl; [|discriminate].
  destruct pred as [|p [|p' pred]]; simpl; discriminate.
Qed.

(** X7.  With an empty held-out target tensor and at least one epoch
    configured, [train_classifier] never returns. *)
Theorem train_classifier_empty_targets (self : Classifier) (x : tensor)
    (logs : gmap string Q) (name : string) (w : World) :
  (1 <= NUM_EPOCHS config)%Z ->
  forall r, train_classifier self train_loader (x, []) config logs name w <> Ok r.
Proof.
  intros Hn [[self' logs'] w'] H.
  apply train_classifier_replay in H as (ms & a & f & c & ex & Hobs & _ & Hex & _ & _).
  destruct ms as [|m ms]; [destruct Hex as [[_ Hlen]|[_ Hlen]]; simpl in Hlen; lia|].
  change (length (m :: ms)) with (S (length ms)) in Hobs. cbn [observe] in Hobs.
  destruct (run_epoch self train_loader (x, [])) as [[s m1]|] eqn:Hrun;
    [|discriminate Hobs].
  unfold run_epoch in Hrun.
  destruct (train_epoch self train_loader) as [[s1 [l acc]]|]; [|discriminate Hrun].
  cbn [mbind result_bind] in Hrun.
  destruct (validate s1 (x, [])) as [r|] eqn:Hv; [|discriminate Hrun].
  exact (validate_no_targets s1 x r Hv).
Qed.

End RunShape.

Lemma train_classifier_mode_witness :
  let cs := [7; 6; 5; 5; 5]%nat in
  let B := scripted square_loss (accuracy_script cs) in
  let self := untrained square_loss (accuracy_script cs) in
  training self = true
  /\ (exists (self' : @Classifier B) (logs' : gmap string Q) (w' : @World B),
        train_classifier self one_batch ten_of_class0 (quiet_config 5 2) ∅ "clf" empty_world
          = Ok (self', logs', w')
        /\ training self' = false)
  /\ (exists (self' : @Classifier B) (logs' : gmap string Q) (w' : @World B),
        train_classifier self one_batch ten_of_class0 (quiet_config 0 2) ∅ "clf" empty_world
          = Ok (self', logs', w')
        /\ self' = self).
Proof.
  intros cs B self. split; [reflexivity|]. split.
  - do 3 eexists.
    match goal with
    | |- ?run /\ _ => assert (Hrun : run) by (vm_compute; reflexivity)
    end.
    split; [exact Hrun|].
    apply (proj1 (train_classifier_mode (B := B) _ _ _ _ _ _ _ _ _ _ Hrun)).
    simpl. lia.
  - do 3 eexists.
    match goal with
    | |- ?run /\ _ => assert (Hrun : run) by (vm_compute; reflexivity)
    end.
    split; [exact Hrun|].
    apply (proj2 (train_classifier_mode (B := B) _ _ _ _ _ _ _ _ _ _ Hrun)).
    simpl. lia.
Defined.

Lemma train_classifier_empty_loader_witness :
  let cs := [7; 6; 5; 5; 5]%nat in
  let B := scripted square_loss (accuracy_script cs) in
  train_classifier (untrained square_loss (accuracy_script cs)) [] ten_of_class0
    (quiet_config 5 2) ∅ "clf" empty_world = Raise ZeroDivisionError.
Proof.
  intros cs B.
  apply (train_classifier_empty_loader (B := B) (quiet_config 5 2) ten_of_class0
           (untrained square_loss (accuracy_script cs)) ∅ "clf" empty_world).
  simpl. lia.
Defined.

Lemma train_classifier_empty_targets_witness :
  let cs := [7; 6; 5; 5; 5]%nat in
  let B := scripted square_loss (accuracy_script cs) in
  exists e : exn,
    train_classifier (untrained square_loss (accuracy_script cs)) one_batch
      (repeat [0; 0; 0]%Q 10, []) (quiet_config 5 2) ∅ "clf" empty_world = Raise e.
Proof.
  intros cs B.
  destruct (train_classifier (untrained square_loss (accuracy_script cs)) one_batch
              (repeat [0; 0; 0]%Q 10, []) (quiet_config 5 2) ∅ "clf" empty_world)
    as [r|e] eqn:Hrun.
  - exfalso.
    apply (train_classifier_empty_targets (B := B) (quiet_config 5 2) one_batch
             (untrained square_loss (accuracy_script cs)) (repeat [0; 0; 0]%Q 10)
             ∅ "clf" empty_world ltac:(simpl; lia) r Hrun).
  - exists e. reflexivity.
Defined.

(* ------------------------------------------------------------------ *)
(** ** When the loop stops and when it does not *)

Section StopOrNot.
Context {B : Backend}.
Variable train_loader : list (tensor * tensor).
Variable test_data : tensor * tensor.

(** X8.  With a patience [P >= 1], a returning run prints the early-stop
    line only after [P] epochs in a row that did not beat the best
    accuracy it records: either it prints no such line, or the epochs it
    ran end with [P] epochs whose accuracies are all at most the recorded
    best (so it ran at least [P] epochs). *)
Theorem early_stop_only_after_patience (config : Config) (self self' : Classifier)
    (logs logs' : gmap string Q) (name : string) (w w' : World) :
  (1 <= EARLY_STOP_PATIENCE config)%Z ->
  train_classifier self train_loader test_data config logs name w = Ok (self', logs', w') ->
  exists (ms : list Metrics) (best : Q),
    observe (length ms) self train_loader test_data = Ok (self', ms)
    /\ logs' !! (name +:+ "_best_acc") = Some best
    /\ (stdout w' = stdout w ++ completed_output config name best
        \/ (stdout w' = stdout w ++ stopped_output config name (length ms - 1) best
            /\ exists front stalls : list Metrics,
                 ms = front ++ stalls
                 /\ Z.of_nat (length stalls) = EARLY_STOP_PATIENCE config
                 /\ Forall (fun m => (test_accuracy m <= best)%Q) stalls)).
Proof.
  intros Hp H.
  apply train_classifier_replay in H as (ms & a & f & c & ex & Hobs & Hes & Hex & -> & ->).
  exists ms, a. split; [exact Hobs|]. split.
  { rewrite lookup_insert_ne by apply best_f1_key_ne_best_acc_key.
    apply lookup_insert_eq. }
  rewrite stdout_finished.
  destruct Hex as [[-> Hlen]|[-> Hlen]].
  - left. rewrite stdout_log_epochs, stdout_started. reflexivity.
  - right. split.
    + simpl stdout. rewrite stdout_log_epochs, stdout_started.
      rewrite <- app_assoc. reflexivity.
    + destruct (early_stopping_stop_tail (EARLY_STOP_PATIENCE config) ms 0 0 0 0%Z a f c
                  ltac:(lia) Hes)
        as (_ & front & stalls & Hms & Hall & Hstalls).
      exists front, stalls. split; [exact Hms|]. split; [|exact Hall].
      destruct Hstalls as [Hs | (_ & _ & Hs)]; lia.
Qed.

(** X9.  If all [NUM_EPOCHS >= 1] epochs can be run and each of them beats
    the one before, the first one having a positive accuracy, the run
    uses up its epochs whatever the patience is (even zero or negative),
    prints no early-stop line, and records the accuracy and the F1 of the
    last epoch. *)
Theorem improving_run_completes (config : Config) (self self' : Classifier)
    (front : list Metrics) (m : Metrics)
    (logs : gmap string Q) (name : string) (w : World) :
  observe (Z.to_nat (NUM_EPOCHS config)) self train_loader test_data
    = Ok (self', front ++ [m]) ->
  (0 < test_accuracy (hd m front))%Q ->
  strictly_improving (map test_accuracy (front ++ [m])) ->
  exists w',
    train_classifier self train_loader test_data config logs name w
    = Ok (self',
          <[name +:+ "_best_f1" := test_f1 m]>
            (<[name +:+ "_best_acc" := test_accuracy m]> logs), w')
    /\ stdout w' = stdout w ++ completed_output config name (test_accuracy m).
Proof.
  intros Hobs Hpos Himp.
  pose proof (observe_length _ _ _ _ _ _ Hobs) as Hlen.
  assert (Hbeats : beats 0 (front ++ [m])).
  { destruct front as [|x front'].
    - simpl. simpl in Hpos. auto.
    - apply beats_of_strictly_improving; assumption. }
  apply (train_classifier_completes config train_loader test_data self self'
           (front ++ [m]) (test_accuracy m) (test_f1 m) 0%Z logs name w).
  - rewrite Hlen. exact Hobs.
  - rewrite <- (app_nil_r (front ++ [m])) at 1.
    rewrite early_stopping_improving by exact Hbeats. reflexivity.
  - exact Hlen.
Qed.

(** X10.  Reporting never influences training: two runs from the same
    classifier on the same data, with the same [NUM_EPOCHS] and
    [EARLY_STOP_PATIENCE], return the same classifier and record the same
    best accuracy and F1, whatever the sink and saving options, the run
    names, the [logs] and the worlds of the two runs are. *)
Theorem training_ignores_reporting (config1 config2 : Config) (self self' : Classifier)
    (logs1 logs1' logs2 : gmap string Q) (name1 name2 : string) (w1 w1' w2 : World) :
  NUM_EPOCHS config2 = NUM_EPOCHS config1 ->
  EARLY_STOP_PATIENCE config2 = EARLY_STOP_PATIENCE config1 ->
  train_classifier self train_loader test_data config1 logs1 name1 w1
    = Ok (self', logs1', w1') ->
  exists logs2' w2',
    train_classifier self train_loader test_data config2 logs2 name2 w2
      = Ok (self', logs2', w2')
    /\ logs2' !! (name2 +:+ "_best_acc") = logs1' !! (name1 +:+ "_best_acc")
    /\ logs2' !! (name2 +:+ "_best_f1") = logs1' !! (name1 +:+ "_best_f1").
Proof.
  intros Hn Hp H.
  apply train_classifier_replay in H as (ms & a & f & c & ex & Hobs & Hes & Hex & -> & _).
  do 2 eexists. split.
  - apply (train_classifier_observed config2 train_loader test_data
             (length ms) self self' ms a f c ex logs2 name2 w2 Hobs).
    + rewrite Hp. exact Hes.
    + rewrite Hn. destruct Hex as [Hex|[Hex Hlen]]; [left; exact Hex | right].
      split; [exact Hex | lia].
  - split.
    + rewrite !(lookup_insert_ne _ (_ +:+ "_best_f1") (_ +:+ "_best_acc"))
        by apply best_f1_key_ne_best_acc_key.
      rewrite !lookup_insert_eq. reflexivity.
    + rewrite !lookup_insert_eq. reflexivity.
Qed.

(** X11.  A later run under the same name leaves no trace of the earlier
    one in [logs]: running it on the [logs] that the earlier run returned
    gives exactly what running it on the original [logs] gives. *)
Theorem rerun_overwrites (config1 config2 : Config)
    (train_loader2 : list (tensor * tensor)) (test_data2 : tensor * tensor)
    (self1 self1' self2 self2' : Classifier)
    (logs logs1 logs2 : gmap string Q) (name : string) (w1 w1' w2 w2' : World) :
  train_classifier self1 train_loader test_data config1 logs name w1
    = Ok (self1', logs1, w1') ->
  train_classifier self2 train_loader2 test_data2 config2 logs1 name w2
    = Ok (self2', logs2, w2') ->
  train_classifier self2 train_loader2 test_data2 config2 logs name w2
    = Ok (self2', logs2, w2').
Proof.
  intros H1 H2.
  apply train_classifier_replay in H1 as (ms1 & a1 & f1 & c1 & ex1 & _ & _ & _ & -> & _).
  apply train_classifier_replay in H2
    as (ms2 & a2 & f2 & c2 & ex2 & Hobs & Hes & Hex & -> & ->).
  rewrite (train_classifier_observed config2 train_loader2 test_data2
             (length ms2) self2 self2' ms2 a2 f2 c2 ex2 logs name w2 Hobs Hes).
  - f_equal. f_equal. f_equal.
    apply map_eq. intros key.
    destruct (decide (key = name +:+ "_best_f1")) as [->|Hf].
    { rewrite !lookup_insert_eq. reflexivity. }
    rewrite !(lookup_insert_ne _ (name +:+ "_best_f1") key) by congruence.
    destruct (decide (key = name +:+ "_best_acc")) as [->|Ha].
    { rewrite !lookup_insert_eq. reflexivity. }
    rewrite !lookup_insert_ne by congruence. reflexivity.
  - destruct Hex as [Hex|[Hex Hlen]]; [left; exact Hex | right].
    split; [exact Hex | lia].
Qed.

End StopOrNot.

Lemma early_stop_only_after_patience_witness :
  let cs := [7; 6; 5; 5; 5]%nat in
  let B := scripted square_loss (accuracy_script cs) in
  let self := untrained square_loss (accuracy_script cs) in
  exists (self' : @Classifier B) (logs' : gmap string Q) (w' : @World B),
    train_classifier self one_batch ten_of_class0 (quiet_config 5 2) ∅ "clf" empty_world
      = Ok (self', logs', w')
    /\ exists (ms : list Metrics) (best : Q),
         observe (length ms) self one_batch ten_of_class0 = Ok (self', ms)
         /\ logs' !! ("clf" +:+ "_best_acc") = Some best
         /\ (stdout w' = stdout (@empty_world B) ++ completed_output (quiet_config 5 2) "clf" best
             \/ (stdout w' = stdout (@empty_world B)
                             ++ stopped_output (quiet_config 5 2) "clf" (length ms - 1) best
                 /\ exists front stalls : list Metrics,
                      ms = front ++ stalls
                      /\ Z.of_nat (length stalls) = EARLY_STOP_PATIENCE (quiet_config 5 2)
                      /\ Forall (fun m => (test_accuracy m <= best)%Q) stalls)).
Proof.
  intros cs B self. do 3 eexists.
  match goal with
  | |- ?run /\ _ => assert (Hrun : run) by (vm_compute; reflexivity)
  end.
  split; [exact Hrun|].
  apply (early_stop_only_after_patience (B := B) one_batch ten_of_class0
           (quiet_config 5 2) _ _ _ _ _ _ _ ltac:(simpl; lia) Hrun).
Defined.

Lemma improving_run_completes_witness :
  let cs := [5; 6; 7]%nat in
  let B := scripted square_loss (accuracy_script cs) in
  let self := untrained square_loss (accuracy_script cs) in
  let m := nth 2 (scripted_metrics cs 3) (Build_Metrics NaN 0 0 0) in
  exists w',
    train_classifier self one_batch ten_of_class0 (quiet_config 3 0) ∅ "clf" empty_world
    = Ok (@Build_Classifier B 3%nat tt false,
          <["clf" +:+ "_best_f1" := test_f1 m]>
            (<["clf" +:+ "_best_acc" := test_accuracy m]> ∅), w')
    /\ stdout w'
       = stdout (@empty_world B) ++ completed_output (quiet_config 3 0) "clf" (test_accuracy m).
Proof.
  intros cs B self m.
  apply (improving_run_completes (B := B) one_batch ten_of_class0 (quiet_config 3 0)
           self (@Build_Classifier B 3%nat tt false)
           (firstn 2 (scripted_metrics cs 3)) m ∅ "clf" empty_world); evaluated.
Defined.

Lemma training_ignores_reporting_witness :
  let cs := [7; 6; 5; 5; 5]%nat in
  let B := scripted square_loss (accuracy_script cs) in
  let self := untrained square_loss (accuracy_script cs) in
  exists (self' : @Classifier B) (logs1' : gmap string Q) (w1' : @World B),
    train_classifier self one_batch ten_of_class0 (quiet_config 5 2) ∅ "a" empty_world
      = Ok (self', logs1', w1')
    /\ exists logs2' w2',
         train_classifier self one_batch ten_of_class0 (loud_config 5 2)
           {["other" := 1%Q]} "b" empty_world = Ok (self', logs2', w2')
         /\ logs2' !! ("b" +:+ "_best_acc") = logs1' !! ("a" +:+ "_best_acc")
         /\ logs2' !! ("b" +:+ "_best_f1") = logs1' !! ("a" +:+ "_best_f1").
Proof.
  intros cs B self. do 3 eexists.
  match goal with
  | |- ?run /\ _ => assert (Hrun : run) by (vm_compute; reflexivity)
  end.
  split; [exact Hrun|].
  apply (training_ignores_reporting (B := B) one_batch ten_of_class0
           (quiet_config 5 2) (loud_config 5 2) self _ ∅ _ {["other" := 1%Q]} "a" "b"
           empty_world _ empty_world eq_refl eq_refl Hrun).
Defined.

Lemma rerun_overwrites_witness :
  let cs := [7; 6; 5; 5; 5]%nat in
  let B := scripted square_loss (accuracy_script cs) in
  let self := untrained square_loss (accuracy_script cs) in
  exists (self2' : @Classifier B) (logs2 : gmap string Q) (w2' : @World B),
    train_classifier self one_batch ten_of_class0 (quiet_config 2 5) ∅ "clf" empty_world
      = Ok (self2', logs2, w2').
Proof.
  intros cs B self. do 3 eexists.
  eapply (rerun_overwrites (B := B) one_batch ten_of_class0 (quiet_config 5 2)
            (quiet_config 2 5) one_batch ten_of_class0 self _ self _ ∅ _ _ "clf"
            empty_world _ empty_world _); vm_compute; reflexivity.
Defined.

(* ------------------------------------------------------------------ *)
(** ** The metrics are fractions *)

Lemma inject_Z_pos (n : Z) : (0 < n)%Z -> (0 < inject_Z n)%Q.
Proof. intros H. change 0%Q with (inject_Z 0). rewrite <- Zlt_Qlt. exact H. Qed.

Lemma inject_Z_nonneg (n : Z) : (0 <= n)%Z -> (0 <= inject_Z n)%Q.
Proof. intros H. change 0%Q with (inject_Z 0). rewrite <- Zle_Qle. exact H. Qed.

(** A count over a positive total is a fraction between 0 and 1. *)
Lemma fraction_bounds (a n : Z) :
  (0 <= a <= n)%Z -> (0 < n)%Z ->
  (0 <= inject_Z a / inject_Z n)%Q /\ (inject_Z a / inject_Z n <= 1)%Q.
Proof.
  intros [Ha Han] Hn.
  assert (Hn' : (0 < inject_Z n)%Q) by (apply inject_Z_pos; exact Hn).
  split.
  - apply Qle_shift_div_l; [exact Hn'|]. rewrite Qmult_0_l.
    apply inject_Z_nonneg. exact Ha.
  - apply Qle_shift_div_r; [exact Hn'|]. rewrite Qmult_1_l.
    rewrite <- (Zle_Qle a n). exact Han.
Qed.

Lemma Qsum_map_bounds {A : Type} (g h : A -> Q) (l : list A) :
  (forall x, In x l -> (0 <= g x)%Q /\ (g x <= h x)%Q) ->
  (0 <= Qsum (map g l))%Q /\ (Qsum (map g l) <= Qsum (map h l))%Q.
Proof.
  induction l as [|x l IH]; intros H; simpl.
  - split; apply Qle_refl.
  - destruct (H x (or_introl eq_refl)) as [H0 H1].
    destruct (IH (fun y Hy => H y (or_intror Hy))) as [I0 I1].
    split.
    + replace 0%Q with (0 + 0)%Q by reflexivity. apply Qplus_le_compat; assumption.
    + apply Qplus_le_compat; assumption.
Qed.

Lemma Qsum_map_ext {A : Type} (g h : A -> Q) (l : list A) :
  (forall x, In x l -> (g x == h x)%Q) ->
  (Qsum (map g l) == Qsum (map h l))%Q.
Proof.
  induction l as [|x l IH]; intros H; simpl.
  - reflexivity.
  - rewrite (H x (or_introl eq_refl)), (IH (fun y Hy => H y (or_intror Hy))).
    reflexivity.
Qed.

Lemma Qsum_inject {A : Type} (s : A -> Z) (l : list A) :
  Qsum (map (fun x => inject_Z (s x)) l) = inject_Z (fold_right Z.add 0%Z (map s l)).
Proof.
  induction l as [|x l IH]; simpl; [reflexivity|].
  rewrite inject_Z_plus, IH. reflexivity.
Qed.

Lemma count_nonneg {A : Type} (f : A -> bool) (l : list A) : (0 <= count f l)%Z.
Proof. unfold count. lia. Qed.

Lemma count_pos {A : Type} (f : A -> bool) (l : list A) (x : A) :
  In x l -> f x = true -> (0 < count f l)%Z.
Proof.
  intros Hin Hf. unfold count.
  assert (In x (List.filter f l)) as H by (apply filter_In; auto).
  destruct (List.filter f l); [destruct H | simpl; lia].
Qed.

(** The true positives of a label are at most its support and at most
    the number of times it is predicted. *)
Lemma true_positives_bounds (c : nat) (y_true : list nat) :
  forall y_pred : list nat,
  (count (fun '(t, p) => (t =? c)%nat && (p =? c)%nat) (combine y_true y_pred)
   <= count (fun t => (t =? c)%nat) y_true)%Z
  /\ (count (fun '(t, p) => (t =? c)%nat && (p =? c)%nat) (combine y_true y_pred)
      <= count (fun p => (p =? c)%nat) y_pred)%Z.
Proof.
  unfold count.
  induction y_true as [|t y_true IH]; intros [|p y_pred]; simpl; try lia.
  specialize (IH y_pred).
  destruct (t =? c)%nat, (p =? c)%nat; simpl; lia.
Qed.

Lemma f1_label_bounds (y_true y_pred : list nat) (c : nat) :
  (0 <= f1_label y_true y_pred c)%Q /\ (f1_label y_true y_pred c <= 1)%Q.
Proof.
  unfold f1_label.
  pose proof (true_positives_bounds c y_true y_pred) as [Ht Hp].
  pose proof (count_nonneg (fun '(t, p) => (t =? c)%nat && (p =? c)%nat)
                (combine y_true y_pred)) as Htp.
  destruct (_ + _ =? 0)%Z eqn:E.
  - split; [apply Qle_refl | discriminate].
  - apply Z.eqb_neq in E. apply fraction_bounds; lia.
Qed.

Lemma f1_score_bounds (y_true y_pred : list nat) (f1 : Q) :
  f1_score y_true y_pred = Ok f1 -> (0 <= f1)%Q /\ (f1 <= 1)%Q.
Proof.
  unfold f1_score. destruct (negb _); [discriminate|].
  set (labels := nodup Nat.eq_dec (y_true ++ y_pred)).
  set (support := fun c : nat => count (fun t => (t =? c)%nat) y_true).
  set (weights := fold_right Z.add 0%Z (map support labels)).
  assert (Hw : (0 <= weights)%Z).
  { subst weights. induction labels as [|c labels IH]; simpl; [lia|].
    pose proof (count_nonneg (fun t => (t =? c)%nat) y_true). subst support.
    simpl in *. lia. }
  destruct (Qsum_map_bounds
              (fun c => inject_Z (support c) * f1_label y_true y_pred c)%Q
              (fun c => inject_Z (support c)) labels) as [S0 S1].
  { intros c _. destruct (f1_label_bounds y_true y_pred c) as [F0 F1].
    assert (Hs : (0 <= inject_Z (support c))%Q)
      by (apply inject_Z_nonneg, count_nonneg).
    split.
    - apply Qmult_le_0_compat; assumption.
    - rewrite <- (Qmult_1_r (inject_Z (support c))) at 2.
      apply Qmult_le_compat_nonneg; split; try assumption. apply Qle_refl. }
  rewrite Qsum_inject in S1. fold weights in S1.
  destruct (weights =? 0)%Z eqn:E; intros H; injection H as <-.
  - split; [apply Qle_refl | discriminate].
  - apply Z.eqb_neq in E.
    assert (Hpos : (0 < inject_Z weights)%Q) by (apply inject_Z_pos; lia).
    split.
    + apply Qle_shift_div_l; [exact Hpos|]. rewrite Qmult_0_l. exact S0.
    + apply Qle_shift_div_r; [exact Hpos|]. rewrite Qmult_1_l. exact S1.
Qed.

Section ValidateFacts.
Context {B : Backend}.

(** X12.  When [validate] returns, the held-out target tensor is not
    empty, the accuracy is the fraction [matches / len(y)] of a number of
    matches between 0 and [len(y)], and both the accuracy and the weighted
    F1 lie between 0 and 1. *)
Theorem validate_metrics_bounds (self self' : Classifier) (x y : tensor)
    (accuracy f1 : Q) :
  validate self (x, y) = Ok (self', (accuracy, f1)) ->
  (0 < len y)%Z
  /\ (exists matches : Z,
        (0 <= matches <= len y)%Z
        /\ accuracy = (inject_Z matches / inject_Z (len y))%Q)
  /\ (0 <= accuracy)%Q /\ (accuracy <= 1)%Q
  /\ (0 <= f1)%Q /\ (f1 <= 1)%Q.
Proof.
  unfold validate, to_default_device. intros H.
  destruct (call (set_training false self) (unsqueeze1 x)) as [[s out]|];
    simpl in H; [|discriminate].
  destruct (argmax out) as [pred|] eqn:Hpred; simpl in H; [|discriminate].
  destruct (argmax y) as [target|] eqn:Htarget; simpl in H; [|discriminate].
  destruct (eq_sum pred target) as [matches|] eqn:Hm; simpl in H; [|discriminate].
  unfold int_div in H.
  destruct (len y =? 0)%Z eqn:Hz; simpl in H; [discriminate|].
  destruct (f1_score target pred) as [f|] eqn:Hf; simpl in H; [|discriminate].
  injection H as _ <- <-.
  apply Z.eqb_neq in Hz.
  assert (Hlen : length pred = length target).
  { unfold f1_score in Hf.
    destruct (length target =? length pred)%nat eqn:E; simpl in Hf; [|discriminate].
    apply Nat.eqb_eq in E. congruence. }
  apply eq_sum_bounds in Hm; [|exact Hlen].
  apply argmax_length in Htarget. rewrite Htarget in Hm. fold (len y) in Hm.
  assert (Hy : (0 < len y)%Z) by (unfold len in *; lia).
  split; [exact Hy|]. split; [exists matches; auto|].
  destruct (fraction_bounds matches (len y) Hm Hy) as [A0 A1].
  destruct (f1_score_bounds _ _ _ Hf) as [F0 F1].
  auto.
Qed.

End ValidateFacts.

Lemma validate_metrics_bounds_witness :
  let B := scripted square_loss (accuracy_script [7; 6; 5]%nat) in
  let y := snd ten_of_class0 in
  (0 < len y)%Z
  /\ (exists matches : Z,
        (0 <= matches <= len y)%Z /\ (7 # 10)%Q = (inject_Z matches / inject_Z (len y))%Q)
  /\ (0 <= 7 # 10)%Q /\ (7 # 10 <= 1)%Q
  /\ (0 <= 420 # 510)%Q /\ (420 # 510 <= 1)%Q.
Proof.
  intros B y.
  apply (validate_metrics_bounds (B := B)
           (@Build_Classifier B 1%nat tt true) (@Build_Classifier B 1%nat tt false)
           (fst ten_of_class0) y (7 # 10)%Q (420 # 510)%Q).
  vm_compute. reflexivity.
Defined.

Lemma train_epoch_accuracy_fraction_witness :
  let B := scripted square_loss (fun _ => []) in
  exists correct : Z,
    (0 <= correct <= examples two_in_two_batches)%Z
    /\ (0 < examples two_in_two_batches)%Z
    /\ (2 # 2)%Q = (inject_Z correct / inject_Z (examples two_in_two_batches))%Q.
Proof.
  intros B.
  apply (train_epoch_accuracy_fraction (B := B)
           (@Build_Classifier B 0%nat tt false) (@Build_Classifier B 2%nat tt true)
           two_in_two_batches (Finite (4 # 8)) (2 # 2)%Q).
  vm_compute. reflexivity.
Defined.

(* ------------------------------------------------------------------ *)
(** ** A classifier that is right everywhere *)

Lemma count_diagonal (l : list nat) :
  count (fun '(x, y) => (x =? y)%nat) (combine l l) = Z.of_nat (length l).
Proof.
  unfold count. f_equal.
  induction l as [|x l IH]; simpl; [reflexivity|].
  rewrite Nat.eqb_refl. simpl. f_equal. exact IH.
Qed.

Lemma true_positives_diagonal (c : nat) (l : list nat) :
  count (fun '(t, p) => (t =? c)%nat && (p =? c)%nat) (combine l l)
  = count (fun t => (t =? c)%nat) l.
Proof.
  unfold count. f_equal.
  induction l as [|x l IH]; simpl; [reflexivity|].
  destruct (x =? c)%nat; simpl; [f_equal|]; exact IH.
Qed.

Lemma sum_pos {A : Type} (s : A -> Z) (l : list A) (x : A) :
  In x l -> (0 < s x)%Z -> (forall y, 0 <= s y)%Z ->
  (0 < fold_right Z.add 0 (map s l))%Z.
Proof.
  intros Hin Hx Hall.
  assert (Hsum : forall k : list A, (0 <= fold_right Z.add 0 (map s k))%Z).
  { induction k as [|y k IH]; simpl; [lia|]. specialize (Hall y). lia. }
  induction l as [|y l IH]; [destruct Hin|].
  simpl. destruct Hin as [->|Hin].
  - specialize (Hsum l). lia.
  - specialize (IH Hin). specialize (Hall y). lia.
Qed.

(** With the predictions equal to the targets, the weighted F1 is 1. *)
Lemma f1_score_all_right (classes : list nat) :
  classes <> [] ->
  exists f1 : Q, f1_score classes classes = Ok f1 /\ (f1 == 1)%Q.
Proof.
  intros Hne.
  assert (exists c0, In c0 classes) as [c0 Hc0]
    by (destruct classes; [congruence | eexists; left; reflexivity]).
  unfold f1_score. rewrite Nat.eqb_refl. simpl negb. cbv iota.
  set (labels := nodup Nat.eq_dec (classes ++ classes)).
  set (support := fun c : nat => count (fun t => (t =? c)%nat) classes).
  assert (Hw : (0 < fold_right Z.add 0 (map support labels))%Z).
  { apply (sum_pos support labels c0).
    - apply nodup_In. apply in_or_app. left. exact Hc0.
    - apply (count_pos _ _ c0); [exact Hc0 | apply Nat.eqb_refl].
    - intros y. apply count_nonneg. }
  replace (fold_right Z.add 0 (map support labels) =? 0)%Z with false
    by (symmetry; apply Z.eqb_neq; lia).
  eexists. split; [reflexivity|].
  rewrite (Qsum_map_ext _ (fun c => inject_Z (support c)) labels).
  - rewrite Qsum_inject. apply Qmult_inv_r.
    intros H. apply inject_Z_pos in Hw. rewrite H in Hw. discriminate.
  - intros c _. unfold f1_label. rewrite true_positives_diagonal. fold (support c).
    pose proof (count_nonneg (fun t => (t =? c)%nat) classes) as Hs. fold (support c) in Hs.
    destruct (support c + support c =? 0)%Z eqn:E.
    + apply Z.eqb_eq in E. replace (support c) with 0%Z by lia. reflexivity.
    + apply Z.eqb_neq in E.
      replace (2 * support c)%Z with (support c + support c)%Z by lia.
      unfold Qdiv. rewrite Qmult_inv_r; [apply Qmult_1_r|].
      intros H. assert (Hp : (0 < support c + support c)%Z) by lia.
      apply inject_Z_pos in Hp. rewrite H in Hp. discriminate.
Qed.

Section AllRight.
Context {B : Backend}.

(** X13.  If the evaluation-mode forward pass answers logits whose argmax
    is, row by row, the argmax of the one-hot targets, and there is at
    least one example, [validate] returns the classifier in evaluation
    mode with an accuracy of 1 and a weighted F1 of 1. *)
Theorem validate_all_right (self : Classifier) (x y out : tensor) (classes : list nat) :
  forward_eval (net self) (unsqueeze1 x) = Ok out ->
  argmax out = Ok classes ->
  argmax y = Ok classes ->
  classes <> [] ->
  exists accuracy f1 : Q,
    validate self (x, y) = Ok (set_training false self, (accuracy, f1))
    /\ (accuracy == 1)%Q /\ (f1 == 1)%Q.
Proof.
  intros Hfwd Hout Hy Hne.
  destruct (f1_score_all_right classes Hne) as (f1 & Hf1 & Hone).
  pose proof (argmax_length _ _ Hy) as Hlen.
  assert (Hn : (0 < len y)%Z).
  { unfold len. rewrite <- Hlen. destruct classes; [congruence | simpl; lia]. }
  exists (inject_Z (len y) / inject_Z (len y))%Q, f1.
  split; [|split; [|exact Hone]].
  - unfold validate, call, to_default_device. simpl training. simpl net.
    rewrite Hfwd. cbn [mbind result_bind]. rewrite Hout. cbn [mbind result_bind].
    rewrite Hy. cbn [mbind result_bind].
    unfold eq_sum. rewrite Nat.eqb_refl. cbn [mbind result_bind].
    rewrite count_diagonal. unfold int_div.
    replace (len y =? 0)%Z with false by (symmetry; apply Z.eqb_neq; lia).
    cbn [mbind result_bind]. rewrite Hf1. cbn [mbind result_bind].
    rewrite Hlen. reflexivity.
  - apply Qmult_inv_r. intros H. apply inject_Z_pos in Hn. rewrite H in Hn. discriminate.
Qed.

End AllRight.

Lemma validate_all_right_witness :
  let B := scripted square_loss (accuracy_script [10]%nat) in
  let self := @Build_Classifier B 1%nat tt true in
  exists accuracy f1 : Q,
    validate self ten_of_class0 = Ok (set_training false self, (accuracy, f1))
    /\ (accuracy == 1)%Q /\ (f1 == 1)%Q.
Proof.
  intros B self.
  apply (validate_all_right (B := B) self (fst ten_of_class0) (snd ten_of_class0)
           (right_of_ten 10) (repeat 0%nat 10)).
  - reflexivity.
  - vm_compute. reflexivity.
  - vm_compute. reflexivity.
  - discriminate.
Defined.

(* ------------------------------------------------------------------ *)
(** ** Which inputs the forward pass accepts *)

Section ShapeInputs.
Import Shape.

(** On a batched single-channel input the forward pass fails only when
    the series are empty, at the first convolution, or when the
    classifier has no class, at the projection. *)
Lemma forward_batched (nb_classes : nat) (training : bool) (n l : nat) :
  forward nb_classes training [n; 1; l]
  = if (1 <=? l) && (1 <=? nb_classes) then Ok [n; nb_classes] else Raise RuntimeError.
Proof.
  destruct l as [|l']; [reflexivity|].
  set (l := S l'). assert (Hl : 1 <= l) by (subst l; lia).
  change (1 <=? l) with true. simpl andb. clearbody l.
  unfold forward. rewrite conv1d_first by exact Hl.
  unfold mbind at 1, result_bind at 1.
  assert (Hbn : forall c, batchnorm1d c training [n; c; l + 1] = Ok [n; c; l + 1]).
  { intros c. unfold batchnorm1d. rewrite Nat.eqb_refl. simpl negb. cbv iota.
    replace (n * (l + 1) =? 1) with false
      by (symmetry; apply Nat.eqb_neq; intros E; destruct n; simpl in E; lia).
    rewrite andb_false_r. reflexivity. }
  assert (Hblock : forall cin cout, 1 <= cout ->
             FCNBlock_forward cin cout 3 1 1 training [n; cin; l + 1]
             = Ok [n; cout; l + 1]).
  { intros cin cout Hc. unfold FCNBlock_forward.
    rewrite conv1d_same_length by lia. unfold mbind at 1, result_bind at 1.
    rewrite Hbn. reflexivity. }
  rewrite Hbn. unfold mbind at 1, result_bind at 1. unfold relu.
  unfold mbind at 1, result_bind at 1.
  rewrite Hblock by (unfold n_feature_maps; lia).
  unfold mbind at 1, result_bind at 1.
  rewrite Hblock by (unfold n_feature_maps; lia).
  unfold mbind at 1, result_bind at 1.
  rewrite Hblock by (unfold n_feature_maps; lia).
  unfold mbind at 1, result_bind at 1.
  rewrite adaptive_avg_pool1d_ok by (unfold n_feature_maps; lia).
  unfold mbind at 1, result_bind at 1.
  destruct nb_classes as [|k].
  - rewrite conv1d_no_output. reflexivity.
  - rewrite conv1d_pointwise by lia. reflexivity.
Qed.

(** An unbatched 2-D input is refused: if it gets past the first
    normalisation, the second block's normalisation sees 64 channels where
    it has 128. *)
Lemma forward_unbatched (nb_classes : nat) (training : bool) (c l : nat) (s : shape) :
  forward nb_classes training [c; l] <> Ok s.
Proof.
  intros H. unfold forward in H.
  destruct (conv1d 1 n_feature_maps 8 1 4 [c; l]) as [out|] eqn:Hc; [|discriminate H].
  unfold conv1d in Hc.
  match type of Hc with
  | (if ?b then _ else _) = _ => destruct b; cbv iota in Hc; [|discriminate Hc]
  end.
  injection Hc as <-. cbn [mbind result_bind] in H.
  match type of H with
  | context [batchnorm1d _ _ [_; ?t]] => set (l' := t) in H
  end.
  destruct (batchnorm1d n_feature_maps training [n_feature_maps; l']) as [out|] eqn:Hb;
    [|discriminate H].
  unfold batchnorm1d in Hb.
  destruct (l' =? n_feature_maps) eqn:E; simpl negb in Hb; cbv iota in Hb;
    [|discriminate Hb].
  apply Nat.eqb_eq in E. rewrite E in Hb.
  destruct training; vm_compute in Hb; injection Hb as <-;
    vm_compute in H; discriminate H.
Qed.

(** An input with another number of channels is refused by the first
    convolution. *)
Lemma forward_channels (nb_classes : nat) (training : bool) (n c l : nat) (s : shape) :
  c <> 1 -> forward nb_classes training [n; c; l] <> Ok s.
Proof.
  intros Hc H. unfold forward in H.
  destruct (conv1d 1 n_feature_maps 8 1 4 [n; c; l]) as [out|] eqn:Hconv.
  - unfold conv1d in Hconv.
    replace (c =? 1) with false in Hconv by (symmetry; apply Nat.eqb_neq; exact Hc).
    rewrite andb_false_r in Hconv. simpl andb in Hconv. cbv iota in Hconv.
    discriminate Hconv.
  - discriminate H.
Qed.

(** X14.  The forward pass returns a result only on a 3-D input with
    exactly one channel, and the result then has the batch size of the
    input and [nb_classes] columns: inputs of another rank, inputs with
    another number of channels and unbatched 2-D inputs are all refused. *)
Theorem forward_accepts_only_single_channel (nb_classes : nat) (training : bool)
    (x s : shape) :
  forward nb_classes training x = Ok s ->
  exists n l : nat, x = [n; 1; l] /\ s = [n; nb_classes].
Proof.
  intros H.
  destruct x as [|a [|b [|c [|d rest]]]]; try discriminate H.
  - exfalso. exact (forward_unbatched _ _ _ _ _ H).
  - destruct (Nat.eq_dec b 1) as [->|Hb].
    + rewrite forward_batched in H.
      destruct (_ && _); [|discriminate H]. injection H as <-. eauto.
    + exfalso. exact (forward_channels _ _ _ _ _ _ Hb H).
Qed.

Lemma forward_accepts_only_single_channel_witness :
  exists n l : nat, [2; 1; 5] = [n; 1; l] /\ [2; 3] = [n; 3].
Proof.
  apply (forward_accepts_only_single_channel 3 true [2; 1; 5] [2; 3]). reflexivity.
Defined.

(** X15.  An [FCNBlock] with at least one input and one output channel,
    kernel 3, stride 1 and padding 1 keeps the batch size and the length
    and sets the channel count to [out_channels], on every non-empty
    batch of series of length at least 1 that holds more than one value
    per channel or is in evaluation mode.  In training mode such a block
    refuses a single series of length 1.  An input with another channel
    count is refused in both modes, and so is every input by a block with
    no output channel. *)
Theorem FCNBlock_same_length (cin cout : nat) (training : bool) (n c l : nat) :
  ((1 <= cin)%nat -> (1 <= cout)%nat ->
   (1 <= n)%nat -> (1 <= l)%nat -> (training = true -> (2 <= n * l)%nat) ->
   FCNBlock_forward cin cout 3 1 1 training [n; cin; l] = Ok [n; cout; l])
  /\ ((1 <= cin)%nat -> (1 <= cout)%nat ->
      FCNBlock_forward cin cout 3 1 1 true [1; cin; 1] = Raise ValueError)
  /\ (c <> cin ->
      FCNBlock_forward cin cout 3 1 1 training [n; c; l] = Raise RuntimeError)
  /\ FCNBlock_forward cin 0 3 1 1 training [n; c; l] = Raise RuntimeError.
Proof.
  split; [|split; [|split]].
  - intros _ Hc Hn Hl Hmode. unfold FCNBlock_forward.
    rewrite conv1d_same_length by assumption. unfold mbind at 1, result_bind at 1.
    unfold batchnorm1d. rewrite Nat.eqb_refl. simpl negb. cbv iota.
    destruct training; simpl andb; [|reflexivity].
    replace (n * l =? 1) with false
      by (symmetry; apply Nat.eqb_neq; specialize (Hmode eq_refl); lia).
    reflexivity.
  - intros _ Hc. unfold FCNBlock_forward.
    rewrite conv1d_same_length by (assumption || lia).
    unfold mbind at 1, result_bind at 1.
    unfold batchnorm1d. rewrite Nat.eqb_refl. reflexivity.
  - intros Hc. unfold FCNBlock_forward, conv1d.
    replace (c =? cin) with false by (symmetry; apply Nat.eqb_neq; exact Hc).
    rewrite andb_false_r. reflexivity.
  - unfold FCNBlock_forward. rewrite conv1d_no_output. reflexivity.
Qed.

Lemma FCNBlock_same_length_witness :
  FCNBlock_forward 64 128 3 1 1 true [2; 64; 1] = Ok [2; 128; 1]
  /\ FCNBlock_forward 64 128 3 1 1 true [1; 64; 1] = Raise ValueError
  /\ FCNBlock_forward 64 128 3 1 1 false [4; 3; 7] = Raise RuntimeError.
Proof.
  split; [|split].
  - apply (proj1 (FCNBlock_same_length 64 128 true 2 0 1)); intros; lia.
  - apply (proj1 (proj2 (FCNBlock_same_length 64 128 true 2 0 1))); lia.
  - apply (proj1 (proj2 (proj2 (FCNBlock_same_length 64 128 false 4 3 7)))). lia.
Defined.

End ShapeInputs.

(* ------------------------------------------------------------------ *)
(** ** When the epoch loss is not a number *)




Section EpochLoss.
Context {B : Backend}.




End EpochLoss.

